(** * Blast Radius: the dependency scanner, the graph assembler and the
      JSON exporter of [blast_radius.py]

    The development embeds the pure core of the [BlastRadius] class:
    [_extract_dependencies] with its inner [extract_refs], [parse_terraform]
    over an explicit view of the file system, [generate_graph] over the
    operations of a directed graph that the code calls, [_graph_to_json]
    and the three [_get_node_*] tables. *)

From Stdlib Require Import ZArith Ascii String List Bool Lia.
From stdpp Require Import base list strings gmap.

Local Open Scope string_scope.
Local Open Scope list_scope.

(** ** Python string primitives used by the scanner

    A string is its sequence of bytes.  The prefixes and the stripped
    characters of the scanner are ASCII, and no byte of a longer UTF-8
    sequence is an ASCII byte, so that testing prefixes and stripping act on
    the bytes as they do on the code points. *)

Module PyStr.

(** [s.startswith(p)] *)
Definition startswith (s p : string) : bool := String.prefix p s.

(** [s.startswith((p1, p2, ...))]: true when one of the prefixes fits. *)
Definition startswith_any (s : string) (ps : list string) : bool :=
  existsb (startswith s) ps.

(** Membership of a character in the [chars] argument of [strip]. *)
Fixpoint in_chars (chars : string) (c : ascii) : bool :=
  match chars with
  | EmptyString => false
  | String c' chars' => Ascii.eqb c c' || in_chars chars' c
  end.

(** [s.lstrip(chars)]: drop leading characters that belong to [chars]. *)
Fixpoint lstrip (chars s : string) : string :=
  match s with
  | EmptyString => EmptyString
  | String c s' => if in_chars chars c then lstrip chars s' else s
  end.

(** [s.rstrip(chars)]: drop trailing characters that belong to [chars]. *)
Fixpoint rstrip (chars s : string) : string :=
  match s with
  | EmptyString => EmptyString
  | String c s' =>
      match rstrip chars s' with
      | EmptyString => if in_chars chars c then EmptyString
                       else String c EmptyString
      | r => String c r
      end
  end.

(** [s.strip(chars)]: both ends; the left index is found first and the
    right one never crosses it, which is what stripping the right end of
    the left-stripped string computes. *)
Definition strip (chars s : string) : string := rstrip chars (lstrip chars s).

(** Every character of [s] belongs to [chars]. *)
Fixpoint all_in (chars s : string) : bool :=
  match s with
  | EmptyString => true
  | String c s' => in_chars chars c && all_in chars s'
  end.

(** First and last character of a string, when it has one. *)
Definition first_char (s : string) : option ascii :=
  match s with EmptyString => None | String c _ => Some c end.

Fixpoint last_char (s : string) : option ascii :=
  match s with
  | EmptyString => None
  | String c EmptyString => Some c
  | String _ s' => last_char s'
  end.

End PyStr.

(** ** The root as a path object

    [parse_terraform] first turns its argument into a path object,
    [Path(path)], and from then on writes it with [str]: in the two error
    messages and in the ['path'] entry of the result.  On a POSIX system
    the string of a path object is the argument with its components joined
    again: the root, a leading [/] (exactly two leading slashes are kept as
    [//]), then the components between slashes that are neither empty nor
    [.], joined with [/]; an empty result is written [.]. *)

Module PyPath.

(** [s.split(sep)] for a separator of one character. *)
Fixpoint split (sep : ascii) (s : string) : list string :=
match s with
| EmptyString => [EmptyString]
| String c s' =>
    if Ascii.eqb c sep then EmptyString :: split sep s'
    else match split sep s' with
         | [] => [String c EmptyString]
         | x :: l => String c x :: l
         end
end.

(** [sep.join(parts)] *)
Fixpoint join (sep : string) (parts : list string) : string :=
match parts with
| [] => EmptyString
| x :: rest =>
    match rest with
    | [] => x
    | _ => x +:+ sep +:+ join sep rest
    end
end.

(** The root of a POSIX path and what follows it: no leading slash, no
  root; exactly two leading slashes, the root [//]; otherwise the root
  [/], the further leading slashes being left to the split. *)
Definition splitroot (p : string) : string * string :=
match p with
| String c1 rest1 =>
    if Ascii.eqb c1 "/"%char then
      match rest1 with
      | String c2 rest2 =>
          if Ascii.eqb c2 "/"%char then
            match rest2 with
            | String c3 _ =>
                if Ascii.eqb c3 "/"%char then ("/", rest1) else ("//", rest2)
            | EmptyString => ("//", rest2)
            end
          else ("/", rest1)
      | EmptyString => ("/", rest1)
      end
    else ("", p)
| EmptyString => ("", p)
end.

(** [str(Path(p))] *)
Definition str (p : string) : string :=
let (root, rel) := splitroot p in
let tail := List.filter
              (fun x => negb (String.eqb x "") && negb (String.eqb x "."))
              (split "/"%char rel) in
match root +:+ join "/" tail with
| EmptyString => "."
| s => s
end.

End PyPath.

(** ** Parsed configuration values

    The configuration parser is an external library.  What it returns, and
    what the scanner inspects with [isinstance], is a tree of mappings with
    string keys, sequences, strings and other scalars (numbers, booleans,
    [None]).  A mapping keeps its items in insertion order. *)

Unset Elimination Schemes.
Inductive value : Type :=
| VStr (s : string)
| VDict (items : list (string * value))
| VList (elems : list value)
| VScalar.
Set Elimination Schemes.

(** The two prefix tuples of [extract_refs], and the [strip] argument. *)
Definition marker_prefixes : list string := ["${"; "data."; "module."].
Definition ref_prefixes : list string := ["data."; "module."].
Definition marker_chars : string := "${}".

(** What one [key, value] item of a mapping appends when [value] is a
    string: the two first branches of the [if]/[elif] chain. *)
Definition scan_string (key s : string) : list string :=
  if String.eqb key "source" then [s]
  else if PyStr.startswith_any s marker_prefixes then
    let ref := PyStr.strip marker_chars s in
    if PyStr.startswith_any ref ref_prefixes then [ref] else []
  else [].

(** [extract_refs] (blast_radius.py, lines 106-121): the strings appended
    to the enclosing [dependencies] list, in the order of the appends. *)
Fixpoint extract_refs (obj : value) : list string :=
  match obj with
  | VDict items =>
      (fix items_loop (l : list (string * value)) : list string :=
         match l with
         | [] => []
         | (key, v) :: l' =>
             match v with
             | VStr s => scan_string key s
             | VDict _ | VList _ => extract_refs v
             | VScalar => []
             end ++ items_loop l'
         end) items
  | VList elems =>
      (fix elems_loop (l : list value) : list string :=
         match l with
         | [] => []
         | item :: l' => extract_refs item ++ elems_loop l'
         end) elems
  | VStr _ | VScalar => []
  end.

(** [_extract_dependencies] (lines 102-124): [list(set(dependencies))].  The set removes the
    duplicates; the order in which a Python set is listed is unspecified, and
    [elements] gives one such order. *)
Definition _extract_dependencies (config : value) : list string :=
  elements (list_to_set (extract_refs config) : gset string).

(** ** Insertion-ordered dictionaries

    A Python [dict] with string keys: items are kept in the order in which
    their keys were first inserted, and assigning to a key that is present
    replaces the value in place. *)

Module Dict.

Definition t (V : Type) : Type := list (string * V).

Section Ops.
Context {V : Type}.

(** [d.get(k)] *)
Fixpoint get (d : t V) (k : string) : option V :=
  match d with
  | [] => None
  | (k', v) :: d' => if String.eqb k' k then Some v else get d' k
  end.

(** [k in d] *)
Definition mem (d : t V) (k : string) : bool :=
  match get d k with Some _ => true | None => false end.

(** [d.get(k, dflt)] *)
Definition get_default (d : t V) (k : string) (dflt : V) : V :=
  match get d k with Some v => v | None => dflt end.

(** [d[k] = v] *)
Fixpoint set (d : t V) (k : string) (v : V) : t V :=
  match d with
  | [] => [(k, v)]
  | (k', v') :: d' =>
      if String.eqb k' k then (k', v) :: d' else (k', v') :: set d' k v
  end.

(** [d.update(e)] *)
Definition update (d e : t V) : t V :=
  fold_left (fun acc kv => set acc (fst kv) (snd kv)) e d.

Definition keys (d : t V) : list string := map fst d.

End Ops.

End Dict.

(** ** The directed graph

    The graph class is the one of the external graph library.  Of its
    state the code reads the node table [_node] (node to attribute
    dictionary) and the successor table [_adj] (node to the dictionary of
    its successors, each with an empty edge-attribute dictionary, so that a
    list of successor names in insertion order carries the same data).  The
    predecessor table mirrors [_adj] and is never read here. *)

Definition attrs : Type := Dict.t string.

Record DiGraph : Type := {
  _node : Dict.t attrs;
  _adj : Dict.t (list string)
}.

Module nx.

Definition empty : DiGraph := {| _node := []; _adj := [] |}.

(** [G.add_node(n, **attr)]: a new node gets the attributes; an existing
    one has its attribute dictionary updated. *)
Definition add_node (G : DiGraph) (n : string) (attr : attrs) : DiGraph :=
  if Dict.mem (_adj G) n then
    {| _node := Dict.set (_node G) n
                  (Dict.update (Dict.get_default (_node G) n []) attr);
       _adj := _adj G |}
  else
    {| _node := Dict.set (_node G) n (Dict.update [] attr);
       _adj := Dict.set (_adj G) n [] |}.

(** The first step of [add_edge] for each endpoint: an endpoint that is
    not a node yet becomes one, without attributes. *)
Definition ensure_node (G : DiGraph) (n : string) : DiGraph :=
  if Dict.mem (_adj G) n then G
  else {| _node := Dict.set (_node G) n []; _adj := Dict.set (_adj G) n [] |}.

(** [succ[v] = datadict] on the successors of one node. *)
Definition add_succ (nbrs : list string) (v : string) : list string :=
  if existsb (String.eqb v) nbrs then nbrs else nbrs ++ [v].

(** [G.add_edge(u, v)] *)
Definition add_edge (G : DiGraph) (u v : string) : DiGraph :=
  let G1 := ensure_node (ensure_node G u) v in
  {| _node := _node G1;
     _adj := Dict.set (_adj G1) u
               (add_succ (Dict.get_default (_adj G1) u []) v) |}.

(** [n in G.nodes] *)
Definition has_node (G : DiGraph) (n : string) : bool := Dict.mem (_node G) n.

(** [G.nodes(data=True)] *)
Definition nodes_data (G : DiGraph) : list (string * attrs) := _node G.

(** [G.nodes] as a list of names *)
Definition nodes (G : DiGraph) : list string := Dict.keys (_node G).

(** [G.edges()]: for each node in the order of the successor table, the
    pairs of the node with each of its successors. *)
Definition out_edges (adj : Dict.t (list string)) : list (string * string) :=
  flat_map (fun p => map (pair (fst p)) (snd p)) adj.

Definition edges (G : DiGraph) : list (string * string) := out_edges (_adj G).

End nx.

(** ** Records and the result of parsing *)

(** The dictionary stored for a resource or a data source. *)
Module Res.
Record info : Type := {
  type : string;
  name : string;
  file : string;
  config : value;
  dependencies : list string
}.
End Res.

(** The dictionary stored for a module: it has no ['type'] entry. *)
Module Mod.
Record info : Type := {
  name : string;
  file : string;
  config : value;
  dependencies : list string
}.
End Mod.

(** The dictionary that [parse_terraform] returns and [generate_graph]
    reads. *)
Record tf_data : Type := {
  resources : Dict.t Res.info;
  data_sources : Dict.t Res.info;
  modules : Dict.t Mod.info;
  path : string
}.

(** ** [parse_terraform] (lines 30-100)

    The file system and the parser are seen through what the function asks
    of them: whether the root exists, the paths that [rglob("*.tf")] lists
    under it, and for each of them its path relative to the root and the
    document that reading and parsing it gives, if they do not raise.

    A parsed block list is a sequence that the loops destructure into pairs
    of a label and a content.  An element that does not destructure raises;
    the handler of the file catches it, so that the records stored before
    stay and the rest of the file is skipped. *)

Inductive entry (A : Type) : Type :=
| Pair (label : string) (content : A)
| Malformed.
Arguments Pair {A} label content.
Arguments Malformed {A}.

Record document : Type := {
  doc_resource : option (list (entry (list (entry value))));
  doc_data : option (list (entry (list (entry value))));
  doc_module : option (list (entry value))
}.

Record tf_file : Type := {
  relative_to : string;
  loads : option document
}.

Record fs_view : Type := {
  path_exists : bool;
  rglob_tf : list tf_file
}.

Inductive error : Type :=
| FileNotFoundError (msg : string)
| ValueError (msg : string).

(** Running the body of the [try]: it ends normally or raises, and in both
    cases leaves the dictionaries as it has updated them. *)
Inductive outcome : Type :=
| Normal (st : tf_data)
| Raised (st : tf_data).

Definition state_of (o : outcome) : tf_data :=
  match o with Normal st | Raised st => st end.

Definition and_then (o : outcome) (k : tf_data -> outcome) : outcome :=
  match o with Normal st => k st | Raised st => Raised st end.

Notation "o >>> k" := (and_then o k) (at level 61, left associativity).

(** A [for] loop over block entries; the first entry that does not
    destructure raises. *)
Fixpoint for_each {A : Type} (l : list (entry A))
    (body : string -> A -> tf_data -> outcome) (st : tf_data) : outcome :=
  match l with
  | [] => Normal st
  | Malformed :: _ => Raised st
  | Pair label content :: l' =>
      body label content st >>> for_each l' body
  end.

(** [if key in parsed: for ... in parsed[key]: ...] *)
Definition if_present {A : Type} (block : option (list (entry A)))
    (body : string -> A -> tf_data -> outcome) (st : tf_data) : outcome :=
  match block with
  | None => Normal st
  | Some l => for_each l body st
  end.

Definition store_resource (file resource_type resource_name : string)
    (resource_config : value) (st : tf_data) : outcome :=
  let full_name := resource_type +:+ "." +:+ resource_name in
  Normal {| resources :=
              Dict.set (resources st) full_name
                {| Res.type := resource_type;
                   Res.name := resource_name;
                   Res.file := file;
                   Res.config := resource_config;
                   Res.dependencies := _extract_dependencies resource_config |};
            data_sources := data_sources st;
            modules := modules st;
            path := path st |}.

Definition store_data (file data_type data_name : string)
    (data_config : value) (st : tf_data) : outcome :=
  let full_name := "data." +:+ data_type +:+ "." +:+ data_name in
  Normal {| resources := resources st;
            data_sources :=
              Dict.set (data_sources st) full_name
                {| Res.type := data_type;
                   Res.name := data_name;
                   Res.file := file;
                   Res.config := data_config;
                   Res.dependencies := _extract_dependencies data_config |};
            modules := modules st;
            path := path st |}.

Definition store_module (file module_name : string)
    (module_config : value) (st : tf_data) : outcome :=
  Normal {| resources := resources st;
            data_sources := data_sources st;
            modules :=
              Dict.set (modules st) module_name
                {| Mod.name := module_name;
                   Mod.file := file;
                   Mod.config := module_config;
                   Mod.dependencies := _extract_dependencies module_config |};
            path := path st |}.

(** The body of the [try] for one parsed document. *)
Definition extract_records (file : string) (parsed : document)
    (st : tf_data) : outcome :=
  if_present (doc_resource parsed)
    (fun resource_type resource_instances =>
       for_each resource_instances (store_resource file resource_type)) st
  >>> if_present (doc_data parsed)
    (fun data_type data_instances =>
       for_each data_instances (store_data file data_type))
  >>> if_present (doc_module parsed) (store_module file).

(** One iteration of the loop over [tf_files], handler included: a file
    that cannot be read or parsed changes nothing, and a file whose
    extraction raises keeps what was stored before the exception. *)
Definition parse_file (st : tf_data) (tf : tf_file) : tf_data :=
  match loads tf with
  | None => st
  | Some parsed => state_of (extract_records (relative_to tf) parsed st)
  end.

Definition parse_terraform (root : string) (fs : fs_view) : error + tf_data :=
  let path_str := PyPath.str root in
  if negb (path_exists fs) then
    inl (FileNotFoundError ("Path not found: " +:+ path_str))
  else
    match rglob_tf fs with
    | [] => inl (ValueError ("No Terraform files found in " +:+ path_str))
    | tf_files =>
        inr (fold_left parse_file tf_files
               {| resources := []; data_sources := []; modules := [];
                  path := path_str |})
    end.

(** ** [generate_graph] (lines 126-169) *)

Definition resource_attrs (resource_info : Res.info) : attrs :=
  [("type", "resource"); ("resource_type", Res.type resource_info);
   ("name", Res.name resource_info); ("file", Res.file resource_info)].

Definition data_attrs (data_info : Res.info) : attrs :=
  [("type", "data"); ("resource_type", Res.type data_info);
   ("name", Res.name data_info); ("file", Res.file data_info)].

Definition module_attrs (module_name : string) (module_info : Mod.info) : attrs :=
  [("type", "module"); ("name", module_name); ("file", Mod.file module_info)].

(** [for dep in deps: if dep in G.nodes: G.add_edge(dep, name)] *)
Definition add_dependency_edges (G : DiGraph) (name : string)
    (deps : list string) : DiGraph :=
  fold_left
    (fun G dep => if nx.has_node G dep then nx.add_edge G dep name else G)
    deps G.

Definition generate_graph (data : tf_data) : DiGraph :=
  let G := nx.empty in
  let G := fold_left
             (fun G item => nx.add_node G (fst item) (resource_attrs (snd item)))
             (resources data) G in
  let G := fold_left
             (fun G item => nx.add_node G (fst item) (data_attrs (snd item)))
             (data_sources data) G in
  let G := fold_left
             (fun G item =>
                nx.add_node G (fst item) (module_attrs (fst item) (snd item)))
             (modules data) G in
  let G := fold_left
             (fun G item =>
                add_dependency_edges G (fst item) (Res.dependencies (snd item)))
             (resources data) G in
  let G := fold_left
             (fun G item =>
                add_dependency_edges G (fst item) (Res.dependencies (snd item)))
             (data_sources data) G in
  let G := fold_left
             (fun G item =>
                add_dependency_edges G (fst item) (Mod.dependencies (snd item)))
             (modules data) G in
  G.

(** ** The node tables (lines 287-312) and the JSON export (lines 261-285) *)

Definition _get_node_color (node_type : string) : string :=
  let colors := [("resource", "#4CAF50"); ("data", "#2196F3");
                 ("module", "#FF9800")] in
  Dict.get_default colors node_type "#9E9E9E".

Definition _get_node_shape (node_type : string) : string :=
  let shapes := [("resource", "box"); ("data", "ellipse");
                 ("module", "diamond")] in
  Dict.get_default shapes node_type "box".

Definition _get_node_group (node_type : string) : Z :=
  let groups := [("resource", 1%Z); ("data", 2%Z); ("module", 3%Z)] in
  Dict.get_default groups node_type 0%Z.

(** The JSON documents that the exporter builds: objects, arrays, strings
    and integers.  Writing such a document and reading it back is the work
    of the standard [json] module and returns the same document; the export
    is studied on the document itself. *)
Unset Elimination Schemes.
Inductive json : Type :=
| JStr (s : string)
| JInt (n : Z)
| JArr (elems : list json)
| JObj (fields : list (string * json)).
Set Elimination Schemes.

(** Field access on a loaded document, and the elements of an array. *)
Definition field (j : json) (k : string) : option json :=
  match j with
  | JObj fields => Dict.get fields k
  | _ => None
  end.

Definition elements_of (j : option json) : list json :=
  match j with
  | Some (JArr l) => l
  | _ => []
  end.

Definition node_object (item : string * attrs) : json :=
  let node := fst item in
  let attrs := snd item in
  JObj [("id", JStr node);
        ("name", JStr (Dict.get_default attrs "name" node));
        ("type", JStr (Dict.get_default attrs "type" "resource"));
        ("resource_type", JStr (Dict.get_default attrs "resource_type" ""));
        ("file", JStr (Dict.get_default attrs "file" ""));
        ("group", JInt (_get_node_group (Dict.get_default attrs "type" "resource")))].

Definition link_object (edge : string * string) : json :=
  JObj [("source", JStr (fst edge)); ("target", JStr (snd edge));
        ("value", JInt 1)].

Definition _graph_to_json (graph : DiGraph) : json :=
  let nodes := map node_object (nx.nodes_data graph) in
  let links := map link_object (nx.edges graph) in
  JObj [("nodes", JArr nodes); ("links", JArr links)].

(** ** The rules of the scanner taken in the other order

    The specification calls the two extraction rules order-independent.
    To compare, [scan_string_ba] tries the reference rule first and the
    ['source'] rule second, in the same [if]/[elif] chain, and
    [extract_refs_ba] is the scanner built on it. *)

Definition scan_string_ba (key s : string) : list string :=
  if PyStr.startswith_any s marker_prefixes then
    let ref := PyStr.strip marker_chars s in
    if PyStr.startswith_any ref ref_prefixes then [ref] else []
  else if String.eqb key "source" then [s]
  else [].

Fixpoint extract_refs_ba (obj : value) : list string :=
  match obj with
  | VDict items =>
      (fix items_loop (l : list (string * value)) : list string :=
         match l with
         | [] => []
         | (key, v) :: l' =>
             match v with
             | VStr s => scan_string_ba key s
             | VDict _ | VList _ => extract_refs_ba v
             | VScalar => []
             end ++ items_loop l'
         end) items
  | VList elems =>
      (fix elems_loop (l : list value) : list string :=
         match l with
         | [] => []
         | item :: l' => extract_refs_ba item ++ elems_loop l'
         end) elems
  | VStr _ | VScalar => []
  end.

(** ** The configuration of the test suite

    [test_parse_terraform_valid_files] writes one file, [main.tf], with a
    VPC and a subnet whose [vpc_id] is the expression [aws_vpc.main.id].
    The expression reaches the scanner as a string; the parser hands
    expressions over wrapped in the interpolation marker, and both forms
    are kept here. *)

Definition vpc_config : value :=
  VDict [("cidr_block", VStr "10.0.0.0/16");
         ("tags", VDict [("Name", VStr "test-vpc")])].

Definition subnet_config (vpc_id : string) : value :=
  VDict [("vpc_id", VStr vpc_id);
         ("cidr_block", VStr "10.0.1.0/24");
         ("tags", VDict [("Name", VStr "test-subnet")])].

Definition main_tf (vpc_id : string) : tf_file :=
  {| relative_to := "main.tf";
     loads := Some {| doc_resource :=
                        Some [Pair "aws_vpc" [Pair "main" vpc_config];
                              Pair "aws_subnet" [Pair "main" (subnet_config vpc_id)]];
                      doc_data := None;
                      doc_module := None |} |}.

Definition test_fs (vpc_id : string) : fs_view :=
  {| path_exists := true; rglob_tf := [main_tf vpc_id] |}.

(** A second configuration: an instance whose [ami] is the interpolated
    name of a data source declared in the same file. *)
Definition ami_tf : tf_file :=
  {| relative_to := "main.tf";
     loads := Some {| doc_resource :=
                        Some [Pair "aws_instance"
                                [Pair "web"
                                   (VDict [("ami", VStr "${data.aws_ami.ubuntu}");
                                           ("instance_type", VStr "t3.micro")])]];
                      doc_data :=
                        Some [Pair "aws_ami"
                                [Pair "ubuntu"
                                   (VDict [("most_recent", VScalar);
                                           ("owners", VList [VStr "099720109477"])])]];
                      doc_module := None |} |}.

Definition ami_fs : fs_view := {| path_exists := true; rglob_tf := [ami_tf] |}.

(** A third configuration: an instance that refers to a module declared in
    the same file. *)
Definition module_tf : tf_file :=
  {| relative_to := "main.tf";
     loads := Some {| doc_resource :=
                        Some [Pair "aws_instance"
                                [Pair "web"
                                   (VDict [("subnet_id", VStr "${module.vpc}")])]];
                      doc_data := None;
                      doc_module :=
                        Some [Pair "vpc"
                                (VDict [("source", VStr "./modules/vpc")])] |} |}.

Definition module_fs : fs_view := {| path_exists := true; rglob_tf := [module_tf] |}.

(** A fourth configuration: the instance takes the [id] attribute of the
    data source, the usual way of writing the reference. *)
Definition ami_id_tf : tf_file :=
  {| relative_to := "main.tf";
     loads := Some {| doc_resource :=
                        Some [Pair "aws_instance"
                                [Pair "web"
                                   (VDict [("ami", VStr "${data.aws_ami.ubuntu.id}");
                                           ("instance_type", VStr "t3.micro")])]];
                      doc_data :=
                        Some [Pair "aws_ami"
                                [Pair "ubuntu"
                                   (VDict [("most_recent", VScalar);
                                           ("owners", VList [VStr "099720109477"])])]];
                      doc_module := None |} |}.

Definition ami_id_fs : fs_view :=
  {| path_exists := true; rglob_tf := [ami_id_tf] |}.

(** The data of [test_generate_graph], written by hand: the subnet lists the
    VPC as a dependency.  The test gives its records no ['config'] entry,
    which [generate_graph] does not read; an empty mapping stands for it.
    [dangling_data] is the same without the VPC record. *)
Definition test_subnet : Res.info :=
  {| Res.type := "aws_subnet"; Res.name := "main"; Res.file := "main.tf";
     Res.config := VDict []; Res.dependencies := ["aws_vpc.main"] |}.

Definition test_graph_data : tf_data :=
  {| resources :=
       [("aws_vpc.main",
         {| Res.type := "aws_vpc"; Res.name := "main"; Res.file := "main.tf";
            Res.config := VDict []; Res.dependencies := [] |});
        ("aws_subnet.main", test_subnet)];
     data_sources := [];
     modules := [];
     path := "/test" |}.

Definition dangling_data : tf_data :=
  {| resources := [("aws_subnet.main", test_subnet)];
     data_sources := [];
     modules := [];
     path := "/test" |}.

(** ** Predicates used to state the properties *)

(** [has_field obj key s]: somewhere in [obj], at any depth, a mapping has
    the item [key: s] with [s] a string. *)
Inductive has_field : value -> string -> string -> Prop :=
| field_here items key s :
    In (key, VStr s) items -> has_field (VDict items) key s
| field_under_key items key' v key s :
    In (key', v) items -> has_field v key s -> has_field (VDict items) key s
| field_under_elem elems v key s :
    In v elems -> has_field v key s -> has_field (VList elems) key s.

(** [without_list_strings obj]: [obj] with every string that is a direct
    element of a sequence removed, at any depth.  Strings that are values
    of mapping keys stay. *)
Fixpoint without_list_strings (obj : value) : value :=
  match obj with
  | VDict items =>
      VDict ((fix on_items (l : list (string * value)) :=
                match l with
                | [] => []
                | (key, v) :: l' => (key, without_list_strings v) :: on_items l'
                end) items)
  | VList elems =>
      VList ((fix on_elems (l : list value) :=
                match l with
                | [] => []
                | VStr _ :: l' => on_elems l'
                | v :: l' => without_list_strings v :: on_elems l'
                end) elems)
  | VStr _ | VScalar => obj
  end.

(** The names of the records of the three collections, and for each record
    its name with its dependency list, in the order of the loops. *)
Definition record_names (data : tf_data) : list string :=
  Dict.keys (resources data) ++ Dict.keys (data_sources data)
  ++ Dict.keys (modules data).

Definition record_dependencies (data : tf_data) : list (string * list string) :=
  map (fun item => (fst item, Res.dependencies (snd item))) (resources data)
  ++ map (fun item => (fst item, Res.dependencies (snd item))) (data_sources data)
  ++ map (fun item => (fst item, Mod.dependencies (snd item))) (modules data).

(** Each record name with its configuration body and its dependency
    list. *)
Definition record_bodies (data : tf_data) : list (string * value * list string) :=
  map (fun item => (fst item, Res.config (snd item), Res.dependencies (snd item)))
    (resources data)
  ++ map (fun item => (fst item, Res.config (snd item), Res.dependencies (snd item)))
       (data_sources data)
  ++ map (fun item => (fst item, Mod.config (snd item), Mod.dependencies (snd item)))
       (modules data).

(** [recognized_reference key s A]: the mapping item [key: s] refers to the
    name [A] by one of the two rules of the scanner, the ['source'] field
    taken verbatim or the marked string stripped. *)
Definition recognized_reference (key s A : string) : Prop :=
  (key = "source" /\ s = A)
  \/ (key <> "source"
      /\ PyStr.startswith_any s marker_prefixes = true
      /\ PyStr.strip marker_chars s = A
      /\ PyStr.startswith_any A ref_prefixes = true).

(** The keys of the two collections that hold a declared type. *)
Definition keyed_by_type_and_name (data : tf_data) : Prop :=
  (forall key info, In (key, info) (resources data) ->
      key = Res.type info +:+ "." +:+ Res.name info)
  /\ (forall key info, In (key, info) (data_sources data) ->
        key = "data." +:+ Res.type info +:+ "." +:+ Res.name info).

(** The dependency list stored with a record is the scan of the
    configuration body stored with it. *)
Definition dependencies_scanned (data : tf_data) : Prop :=
  forall name config deps,
    In (name, config, deps) (record_bodies data) ->
    deps = _extract_dependencies config.

(** The node kinds that [generate_graph] writes, and a node whose
    attributes carry one of them under ['type']. *)
Definition node_kinds : list string := ["resource"; "data"; "module"].

Definition node_typed (item : string * attrs) : Prop :=
  exists t, Dict.get (snd item) "type" = Some t /\ In t node_kinds.

(** The state that the graph operations keep: the node table and the
    successor table have the same keys, no key twice, and no successor
    twice. *)
Definition graph_ok (G : DiGraph) : Prop :=
  Dict.keys (_node G) = Dict.keys (_adj G)
  /\ List.NoDup (Dict.keys (_adj G))
  /\ Forall (fun p => List.NoDup (snd p)) (_adj G).

(** ** The static images (lines 199-247)

    [export_svg] and [export_png] build the same description of the graph
    for the layout engine, statement by statement, before they render it:
    the graph attribute [rankdir], one node statement for each node and one
    edge statement for each edge.  The description is kept as the list of
    the statements in the order of the calls. *)

Inductive dot_stmt : Type :=
| GraphAttr (key val : string)
| NodeStmt (name label : string) (style : Dict.t string)
| EdgeStmt (tail head : string).

(** [dot.node(node, attrs.get('name', node), color=color, shape=shape,
    style='filled')] *)
Definition dot_node (item : string * attrs) : dot_stmt :=
  let node := fst item in
  let attrs := snd item in
  let node_type := Dict.get_default attrs "type" "resource" in
  let color := _get_node_color node_type in
  let shape := _get_node_shape node_type in
  NodeStmt node (Dict.get_default attrs "name" node)
    [("color", color); ("shape", shape); ("style", "filled")].

(** [dot.edge(edge[0], edge[1])] *)
Definition dot_edge (edge : string * string) : dot_stmt :=
  EdgeStmt (fst edge) (snd edge).

Definition export_svg_dot (graph : DiGraph) : list dot_stmt :=
  GraphAttr "rankdir" "TB"
  :: map dot_node (nx.nodes_data graph) ++ map dot_edge (nx.edges graph).

Definition export_png_dot (graph : DiGraph) : list dot_stmt :=
  GraphAttr "rankdir" "TB"
  :: map dot_node (nx.nodes_data graph) ++ map dot_edge (nx.edges graph).

(** The names that the node statements of a description declare, and the
    fill colour of each. *)
Definition declared_nodes (body : list dot_stmt) : list string :=
  flat_map (fun stmt => match stmt with
                        | NodeStmt name _ _ => [name]
                        | _ => []
                        end) body.

Definition dot_edges (body : list dot_stmt) : list (string * string) :=
  flat_map (fun stmt => match stmt with
                        | EdgeStmt tail head => [(tail, head)]
                        | _ => []
                        end) body.

(** ** The fill colour of the interactive page (lines 506-509)

    The script of the page colours a node by its [group]:
    [colors[d.group] || colors[0]] over a list of four colours.  An index
    outside the list gives [undefined], which falls back to the first
    colour; the four colours are non-empty strings and stand for
    themselves. *)
Definition html_colors : list string :=
  ["#9E9E9E"; "#4CAF50"; "#2196F3"; "#FF9800"].

Definition html_fill (group : Z) : string :=
  if (group <? 0)%Z then nth 0 html_colors ""
  else match nth_error html_colors (Z.to_nat group) with
       | Some color => color
       | None => nth 0 html_colors ""
       end.

(** ** Files that load and blocks that destructure *)

(** [loadable tf]: reading and parsing the file raise nothing. *)
Definition loadable (tf : tf_file) : bool :=
  match loads tf with Some _ => true | None => false end.

(** Every entry of a block list destructures. *)
Definition well_formed {A : Type} (l : list (entry A)) : bool :=
  forallb (fun e => match e with Pair _ _ => true | Malformed => false end) l.

(** The same for a list of typed blocks and the instances of each. *)
Definition well_formed_typed (l : list (entry (list (entry value)))) : bool :=
  forallb (fun e => match e with
                    | Pair _ instances => well_formed instances
                    | Malformed => false
                    end) l.

Definition block_ok {A : Type} (wf : list (entry A) -> bool)
    (block : option (list (entry A))) : bool :=
  match block with None => true | Some l => wf l end.

(** The declarations of a document: type, name and body of each resource
    and data source, name and body of each module. *)
Definition typed_declarations (block : option (list (entry (list (entry value)))))
  : list (string * string * value) :=
  match block with
  | None => []
  | Some l =>
      flat_map (fun e => match e with
                         | Pair ty instances =>
                             flat_map (fun i => match i with
                                                | Pair nm cfg => [(ty, nm, cfg)]
                                                | Malformed => []
                                                end) instances
                         | Malformed => []
                         end) l
  end.

Definition module_declarations (block : option (list (entry value)))
  : list (string * value) :=
  match block with
  | None => []
  | Some l => flat_map (fun e => match e with
                                 | Pair nm cfg => [(nm, cfg)]
                                 | Malformed => []
                                 end) l
  end.

(** ** The assignments of a run

    What the loops assign into each dictionary, in the order of the
    assignments.  A loop stops at the first entry that does not
    destructure, and the handler of the file drops the rest of the file. *)

(** The entries of a block list before the first that does not
    destructure. *)
Fixpoint reached {A : Type} (l : list (entry A)) : list (string * A) :=
  match l with
  | Pair label content :: l' => (label, content) :: reached l'
  | _ => []
  end.

(** The declarations that the two nested loops come to: the instances of a
    typed block before the first that does not destructure, and the blocks
    after it only when all of them did. *)
Fixpoint reached_typed (l : list (entry (list (entry value))))
  : list (string * string * value) :=
  match l with
  | Pair ty instances :: l' =>
      map (fun i => (ty, fst i, snd i)) (reached instances)
      ++ (if well_formed instances then reached_typed l' else [])
  | _ => []
  end.

Definition reached_block (block : option (list (entry (list (entry value)))))
  : list (string * string * value) :=
  match block with None => [] | Some l => reached_typed l end.

(** The item assigned for a declaration. *)
Definition resource_item (file : string) (decl : string * string * value)
  : string * Res.info :=
  let '(ty, nm, cfg) := decl in
  (ty +:+ "." +:+ nm,
   {| Res.type := ty; Res.name := nm; Res.file := file; Res.config := cfg;
      Res.dependencies := _extract_dependencies cfg |}).

Definition data_item (file : string) (decl : string * string * value)
  : string * Res.info :=
  let '(ty, nm, cfg) := decl in
  ("data." +:+ ty +:+ "." +:+ nm,
   {| Res.type := ty; Res.name := nm; Res.file := file; Res.config := cfg;
      Res.dependencies := _extract_dependencies cfg |}).

Definition module_item (file : string) (decl : string * value)
  : string * Mod.info :=
  let '(nm, cfg) := decl in
  (nm,
   {| Mod.name := nm; Mod.file := file; Mod.config := cfg;
      Mod.dependencies := _extract_dependencies cfg |}).

(** The assignments that one file makes: the resource loop runs first, the
    data loop only when the resource loop has ended without raising, and
    the module loop only when both have. *)
Definition resource_writes (tf : tf_file) : list (string * Res.info) :=
  match loads tf with
  | None => []
  | Some doc =>
      map (resource_item (relative_to tf)) (reached_block (doc_resource doc))
  end.

Definition data_writes (tf : tf_file) : list (string * Res.info) :=
  match loads tf with
  | None => []
  | Some doc =>
      if block_ok well_formed_typed (doc_resource doc)
      then map (data_item (relative_to tf)) (reached_block (doc_data doc))
      else []
  end.

Definition module_writes (tf : tf_file) : list (string * Mod.info) :=
  match loads tf with
  | None => []
  | Some doc =>
      if block_ok well_formed_typed (doc_resource doc)
         && block_ok well_formed_typed (doc_data doc)
      then map (module_item (relative_to tf))
             (match doc_module doc with None => [] | Some l => reached l end)
      else []
  end.

(** How a loop ends: normally when every entry destructured. *)
Definition ended (ok : bool) (st : tf_data) : outcome :=
  if ok then Normal st else Raised st.

(** A file that declares the instance of [ami_tf] again, with another
    body. *)
Definition override_tf : tf_file :=
  {| relative_to := "override.tf";
     loads := Some {| doc_resource :=
                        Some [Pair "aws_instance"
                                [Pair "web"
                                   (VDict [("instance_type", VStr "t3.large")])]];
                      doc_data := None;
                      doc_module := None |} |}.

(** The dictionaries before the first file is read. *)
Definition no_records (root : string) : tf_data :=
  {| resources := []; data_sources := []; modules := []; path := root |}.

(** The node objects that the export writes for the records of each kind
    when no two records share a name. *)
Definition resource_object (item : string * Res.info) : json :=
  JObj [("id", JStr (fst item));
        ("name", JStr (Res.name (snd item)));
        ("type", JStr "resource");
        ("resource_type", JStr (Res.type (snd item)));
        ("file", JStr (Res.file (snd item)));
        ("group", JInt 1)].

Definition data_object (item : string * Res.info) : json :=
  JObj [("id", JStr (fst item));
        ("name", JStr (Res.name (snd item)));
        ("type", JStr "data");
        ("resource_type", JStr (Res.type (snd item)));
        ("file", JStr (Res.file (snd item)));
        ("group", JInt 2)].

Definition module_object (item : string * Mod.info) : json :=
  JObj [("id", JStr (fst item));
        ("name", JStr (fst item));
        ("type", JStr "module");
        ("resource_type", JStr "");
        ("file", JStr (Mod.file (snd item)));
        ("group", JInt 3)].

(** The pairs (dependency, record) that the records list. *)
Definition listed_dependencies (data : tf_data) : list (string * string) :=
  flat_map (fun p => map (fun dep => (dep, fst p)) (snd p))
    (record_dependencies data).

(** * Properties *)

(** ** The string of the root *)

(** A trailing slash, a leading [./], a doubled slash and [.] components
    go; the empty string is the current directory; two leading slashes
    stay and three make one; [..] stays. *)
Example str_of_path :
  map PyPath.str ["/tmp/tf/"; "./empty"; "a//b"; ""; "."; "/"; "//a"; "///a//b/";
                  "a/./b/../c"; "/nonexistent/path"]
  = ["/tmp/tf"; "empty"; "a/b"; "."; "."; "/"; "//a"; "/a/b";
     "a/b/../c"; "/nonexistent/path"].
Proof. reflexivity. Qed.

(** ** Strings: what [strip] keeps and what it drops *)

Section StringFacts.

Variable chars : string.

Lemma lstrip_split (s : string) :
  exists pre, s = pre +:+ PyStr.lstrip chars s /\ PyStr.all_in chars pre = true.
Proof.
  induction s as [|c s [pre [Hs Hpre]]]; simpl.
  - exists EmptyString. split; reflexivity.
  - destruct (PyStr.in_chars chars c) eqn:Hc.
    + exists (String c pre). simpl. rewrite Hc, Hpre. split; [|reflexivity].
      change (String c s = String c (pre +:+ PyStr.lstrip chars s)).
      f_equal. exact Hs.
    + exists EmptyString. split; reflexivity.
Qed.

Lemma lstrip_first (s : string) (c : ascii) :
  PyStr.first_char (PyStr.lstrip chars s) = Some c ->
  PyStr.in_chars chars c = false.
Proof.
  induction s as [|a s IH]; simpl; [discriminate|].
  destruct (PyStr.in_chars chars a) eqn:Ha; [exact IH|].
  simpl. intros [= <-]. exact Ha.
Qed.

Lemma rstrip_split (s : string) :
  exists post, s = PyStr.rstrip chars s +:+ post /\ PyStr.all_in chars post = true.
Proof.
  induction s as [|c s [post [Hs Hpost]]]; simpl.
  - exists EmptyString. split; reflexivity.
  - destruct (PyStr.rstrip chars s) as [|a r] eqn:Hr.
    + change (s = post) in Hs. subst post.
      destruct (PyStr.in_chars chars c) eqn:Hc.
      * exists (String c s). simpl. rewrite Hc, Hpost. split; reflexivity.
      * exists s. split; [reflexivity|exact Hpost].
    + exists post. split; [|exact Hpost].
      change (String c s = String c (String a r +:+ post)).
      f_equal. exact Hs.
Qed.

Lemma rstrip_last (s : string) (c : ascii) :
  PyStr.last_char (PyStr.rstrip chars s) = Some c ->
  PyStr.in_chars chars c = false.
Proof.
  induction s as [|a s IH]; simpl; [discriminate|].
  destruct (PyStr.rstrip chars s) as [|b r] eqn:Hr.
  - destruct (PyStr.in_chars chars a) eqn:Ha; simpl; [discriminate|].
    intros [= <-]. exact Ha.
  - intros H. apply IH. exact H.
Qed.

Lemma rstrip_first (s : string) (c : ascii) :
  PyStr.first_char (PyStr.rstrip chars s) = Some c ->
  PyStr.first_char s = Some c.
Proof.
  destruct s as [|a s]; simpl; [discriminate|].
  destruct (PyStr.rstrip chars s); [destruct (PyStr.in_chars chars a)|];
    simpl; congruence.
Qed.

(** [strip] writes the string as dropped characters, the result, dropped
    characters; the result neither starts nor ends with a dropped one. *)
Lemma strip_split (s : string) :
  exists pre post,
    s = pre +:+ PyStr.strip chars s +:+ post
    /\ PyStr.all_in chars pre = true /\ PyStr.all_in chars post = true.
Proof.
  destruct (lstrip_split s) as [pre [Hs Hpre]].
  destruct (rstrip_split (PyStr.lstrip chars s)) as [post [Hl Hpost]].
  exists pre, post. unfold PyStr.strip. rewrite <- Hl. auto.
Qed.

Lemma strip_first (s : string) (c : ascii) :
  PyStr.first_char (PyStr.strip chars s) = Some c ->
  PyStr.in_chars chars c = false.
Proof.
  unfold PyStr.strip. intros H. apply rstrip_first in H.
  exact (lstrip_first _ _ H).
Qed.

Lemma strip_last (s : string) (c : ascii) :
  PyStr.last_char (PyStr.strip chars s) = Some c ->
  PyStr.in_chars chars c = false.
Proof. unfold PyStr.strip. apply rstrip_last. Qed.

End StringFacts.

(** ** Induction on configuration values *)

Lemma value_ind (P : value -> Prop) :
  (forall s, P (VStr s)) ->
  (forall items, Forall (fun kv => P (snd kv)) items -> P (VDict items)) ->
  (forall elems, Forall P elems -> P (VList elems)) ->
  P VScalar ->
  forall obj, P obj.
Proof.
  intros HStr HDict HList HScalar.
  fix IH 1. intros [s|items|elems|].
  - apply HStr.
  - apply HDict. induction items as [|[key v] items IHitems]; constructor.
    + apply IH.
    + exact IHitems.
  - apply HList. induction elems as [|v elems IHelems]; constructor.
    + apply IH.
    + exact IHelems.
  - exact HScalar.
Qed.

(** ** The scanner, item by item *)

Lemma extract_refs_dict_cons (key : string) (v : value) (l : list (string * value)) :
  extract_refs (VDict ((key, v) :: l)) =
  match v with
  | VStr s => scan_string key s
  | VDict _ | VList _ => extract_refs v
  | VScalar => []
  end ++ extract_refs (VDict l).
Proof. reflexivity. Qed.

Lemma extract_refs_list_cons (item : value) (l : list value) :
  extract_refs (VList (item :: l)) = extract_refs item ++ extract_refs (VList l).
Proof. reflexivity. Qed.

Lemma extract_refs_list_app (l1 l2 : list value) :
  extract_refs (VList (l1 ++ l2)) = extract_refs (VList l1) ++ extract_refs (VList l2).
Proof.
  induction l1 as [|item l1 IH]; [reflexivity|].
  change ((item :: l1) ++ l2) with (item :: (l1 ++ l2)).
  rewrite !extract_refs_list_cons, IH, app_assoc. reflexivity.
Qed.

Lemma extract_refs_ba_dict_cons (key : string) (v : value) (l : list (string * value)) :
  extract_refs_ba (VDict ((key, v) :: l)) =
  match v with
  | VStr s => scan_string_ba key s
  | VDict _ | VList _ => extract_refs_ba v
  | VScalar => []
  end ++ extract_refs_ba (VDict l).
Proof. reflexivity. Qed.

Lemma extract_refs_ba_list_cons (item : value) (l : list value) :
  extract_refs_ba (VList (item :: l)) =
  extract_refs_ba item ++ extract_refs_ba (VList l).
Proof. reflexivity. Qed.

Lemma has_field_dict_cons (key' : string) (v : value) (l : list (string * value))
    (key s : string) :
  has_field (VDict ((key', v) :: l)) key s <->
  (key' = key /\ v = VStr s) \/ has_field v key s \/ has_field (VDict l) key s.
Proof.
  split.
  - intros H. inversion H as [items k s0 Hin|items k0 v0 k s0 Hin Hf|]; subst.
    + destruct Hin as [[= -> ->]|Hin]; [left; auto|].
      right; right. apply field_here. exact Hin.
    + destruct Hin as [[= -> ->]|Hin]; [right; left; exact Hf|].
      right; right. eapply field_under_key; eassumption.
  - intros [[-> ->]|[Hf|Hf]].
    + apply field_here. left. reflexivity.
    + eapply field_under_key; [left; reflexivity|exact Hf].
    + inversion Hf; subst.
      * apply field_here. right. assumption.
      * eapply field_under_key; [right; eassumption|assumption].
Qed.

Lemma has_field_list_cons (v : value) (l : list value) (key s : string) :
  has_field (VList (v :: l)) key s <->
  has_field v key s \/ has_field (VList l) key s.
Proof.
  split.
  - intros H. inversion H as [| |elems v0 k s0 Hin Hf]; subst.
    destruct Hin as [->|Hin]; [left; exact Hf|].
    right. eapply field_under_elem; eassumption.
  - intros [Hf|Hf].
    + eapply field_under_elem; [left; reflexivity|exact Hf].
    + inversion Hf; subst. eapply field_under_elem; [right; eassumption|assumption].
Qed.

Lemma has_field_leaf (obj : value) (key s : string) :
  has_field obj key s ->
  match obj with VStr _ | VScalar => False | _ => True end.
Proof. intros H. destruct H; exact I. Qed.

(** A string is recorded exactly when some mapping item of the body,
    at any depth, records it. *)
Lemma in_extract_refs (obj : value) (d : string) :
  In d (extract_refs obj) <->
  exists key s, has_field obj key s /\ In d (scan_string key s).
Proof.
  induction obj as [s|items IH|elems IH|] using value_ind.
  - split; [intros []|]. intros (key & s' & H & _). exact (has_field_leaf _ _ _ H).
  - induction items as [|[key v] items IHitems].
    + split; [intros []|]. intros (key & s' & H & _). inversion H; subst; contradiction.
    + inversion IH as [|? ? Hv Hitems]; subst. simpl in Hv.
      specialize (IHitems Hitems).
      rewrite extract_refs_dict_cons, in_app_iff, IHitems.
      setoid_rewrite has_field_dict_cons.
      destruct v as [s|items'|elems'|].
      * split.
        -- intros [H|(k & s' & H & Hd)]; [exists key, s; auto|].
           exists k, s'. auto.
        -- intros (k & s' & [[-> [= ->]]|[H|H]] & Hd); [left; exact Hd| |].
           ++ exfalso. exact (has_field_leaf _ _ _ H).
           ++ right. exists k, s'. auto.
      * rewrite Hv. split.
        -- intros [(k & s' & H & Hd)|(k & s' & H & Hd)]; exists k, s'; auto.
        -- intros (k & s' & [[_ [=]]|[H|H]] & Hd); [left|right]; exists k, s'; auto.
      * rewrite Hv. split.
        -- intros [(k & s' & H & Hd)|(k & s' & H & Hd)]; exists k, s'; auto.
        -- intros (k & s' & [[_ [=]]|[H|H]] & Hd); [left|right]; exists k, s'; auto.
      * split.
        -- intros [[]|(k & s' & H & Hd)]. exists k, s'. auto.
        -- intros (k & s' & [[_ [=]]|[H|H]] & Hd).
           ++ exfalso. exact (has_field_leaf _ _ _ H).
           ++ right. exists k, s'. auto.
  - induction elems as [|v elems IHelems].
    + split; [intros []|]. intros (key & s' & H & _). inversion H; subst; contradiction.
    + inversion IH as [|? ? Hv Helems]; subst.
      specialize (IHelems Helems).
      rewrite extract_refs_list_cons, in_app_iff, IHelems, Hv.
      setoid_rewrite has_field_list_cons.
      split.
      * intros [(k & s' & H & Hd)|(k & s' & H & Hd)]; exists k, s'; auto.
      * intros (k & s' & [H|H] & Hd); [left|right]; exists k, s'; auto.
  - split; [intros []|]. intros (key & s' & H & _). exact (has_field_leaf _ _ _ H).
Qed.

(** What one string item records. *)
Lemma in_scan_string (key s d : string) :
  In d (scan_string key s) <->
  (key = "source" /\ d = s)
  \/ (key <> "source"
      /\ PyStr.startswith_any s marker_prefixes = true
      /\ d = PyStr.strip marker_chars s
      /\ PyStr.startswith_any d ref_prefixes = true).
Proof.
  unfold scan_string.
  destruct (String.eqb_spec key "source") as [->|Hne].
  - simpl. split.
    + intros [<-|[]]. left. auto.
    + intros [[_ ->]|[H _]]; [left; reflexivity|congruence].
  - destruct (PyStr.startswith_any s marker_prefixes) eqn:Hm.
    + cbv zeta.
      destruct (PyStr.startswith_any (PyStr.strip marker_chars s) ref_prefixes) eqn:Hr.
      * split.
        -- intros [<-|[]]. right. auto.
        -- intros [[H _]|(_ & _ & -> & _)]; [congruence|left; reflexivity].
      * split; [intros []|].
        intros [[H _]|(_ & _ & -> & H)]; congruence.
    + split; [intros []|].
      intros [[H _]|(_ & H & _)]; congruence.
Qed.

(** The references of the specification are what the item scan records. *)
Lemma recognized_reference_scan (key s A : string) :
  recognized_reference key s A <-> In A (scan_string key s).
Proof.
  rewrite in_scan_string. unfold recognized_reference. split.
  - intros [[-> ->]|(Hk & Hm & <- & Hr)]; [left|right]; auto.
  - intros [[-> ->]|(Hk & Hm & -> & Hr)]; [left|right]; auto.
Qed.

(** Removing the duplicates keeps the members. *)
Lemma in_extract_dependencies (config : value) (d : string) :
  In d (_extract_dependencies config) <-> In d (extract_refs config).
Proof.
  unfold _extract_dependencies.
  rewrite <- !list_elem_of_In, elem_of_elements, elem_of_list_to_set.
  reflexivity.
Qed.

Lemma NoDup_extract_dependencies (config : value) :
  List.NoDup (_extract_dependencies config).
Proof. unfold _extract_dependencies. apply NoDup_ListNoDup, NoDup_elements. Qed.

(** ** The scanner ignores strings that are elements of sequences *)

Lemma without_list_strings_dict (items : list (string * value)) :
  without_list_strings (VDict items) =
  VDict (map (fun kv => (fst kv, without_list_strings (snd kv))) items).
Proof.
  simpl. f_equal.
  induction items as [|[key v] items IH]; [reflexivity|].
  simpl. f_equal. exact IH.
Qed.

Lemma without_list_strings_list (elems : list value) :
  without_list_strings (VList elems) =
  VList (flat_map (fun v => match v with
                            | VStr _ => []
                            | _ => [without_list_strings v]
                            end) elems).
Proof.
  simpl. f_equal.
  induction elems as [|v elems IH]; [reflexivity|].
  destruct v; simpl; rewrite ?IH; reflexivity.
Qed.

Lemma extract_refs_without_list_strings (obj : value) :
  extract_refs (without_list_strings obj) = extract_refs obj.
Proof.
  induction obj as [s|items IH|elems IH|] using value_ind; try reflexivity.
  - rewrite without_list_strings_dict.
    induction items as [|[key v] items IHitems]; [reflexivity|].
    inversion IH as [|? ? Hv Hitems]; subst. simpl in Hv.
    cbn [map fst snd]. rewrite !extract_refs_dict_cons, (IHitems Hitems).
    f_equal.
    destruct v as [s|items'|elems'|]; try reflexivity.
    + rewrite <- Hv, without_list_strings_dict. reflexivity.
    + rewrite <- Hv, without_list_strings_list. reflexivity.
  - rewrite without_list_strings_list.
    induction elems as [|v elems IHelems]; [reflexivity|].
    inversion IH as [|? ? Hv Helems]; subst.
    rewrite extract_refs_list_cons, <- (IHelems Helems).
    destruct v as [s|items'|elems'|]; cbn [flat_map app].
    + reflexivity.
    + rewrite extract_refs_list_cons, Hv. reflexivity.
    + rewrite extract_refs_list_cons, Hv. reflexivity.
    + rewrite extract_refs_list_cons. reflexivity.
Qed.

(** ** The two orders of the rules *)

Lemma scan_string_ba_agrees (key s : string) :
  (key = "source" -> PyStr.startswith_any s marker_prefixes = false) ->
  scan_string_ba key s = scan_string key s.
Proof.
  unfold scan_string_ba, scan_string. intros H.
  destruct (String.eqb_spec key "source") as [Hk|Hk].
  - rewrite (H Hk). reflexivity.
  - reflexivity.
Qed.

Lemma extract_refs_ba_agrees (obj : value) :
  (forall s, has_field obj "source" s ->
             PyStr.startswith_any s marker_prefixes = false) ->
  extract_refs_ba obj = extract_refs obj.
Proof.
  induction obj as [s|items IH|elems IH|] using value_ind; try reflexivity.
  - induction items as [|[key v] items IHitems]; [reflexivity|].
    inversion IH as [|? ? Hv Hitems]; subst. simpl in Hv. intros Hsrc.
    rewrite extract_refs_ba_dict_cons, extract_refs_dict_cons.
    rewrite (IHitems Hitems).
    2:{ intros s Hs. apply Hsrc. apply has_field_dict_cons. auto. }
    f_equal.
    destruct v as [s|items'|elems'|]; try reflexivity.
    + apply scan_string_ba_agrees. intros ->. apply Hsrc.
      apply has_field_dict_cons. auto.
    + apply Hv. intros s Hs. apply Hsrc. apply has_field_dict_cons. auto.
    + apply Hv. intros s Hs. apply Hsrc. apply has_field_dict_cons. auto.
  - induction elems as [|v elems IHelems]; [reflexivity|].
    inversion IH as [|? ? Hv Helems]; subst. intros Hsrc.
    rewrite extract_refs_ba_list_cons, extract_refs_list_cons.
    rewrite (IHelems Helems).
    2:{ intros s Hs. apply Hsrc. apply has_field_list_cons. auto. }
    f_equal. apply Hv. intros s Hs. apply Hsrc. apply has_field_list_cons. auto.
Qed.

Lemma source_field_recorded (obj : value) (s : string) :
  has_field obj "source" s -> In s (_extract_dependencies obj).
Proof.
  intros H. apply in_extract_dependencies, in_extract_refs.
  exists "source", s. split; [exact H|]. left. reflexivity.
Qed.

(** ** Claims on the scanner *)

(** C5. The scanner records only marker-stripped strings that start with
    [data.] or [module.], or the string value of a field named [source].
    A bare attribute reference such as [aws_vpc.main.id], wrapped in the
    interpolation marker or not, is not recorded unless it is the value of
    a [source] field, and the graph of the test configuration has no edge
    for it. *)
Theorem scanner_records_only_prefixed_or_source :
  (forall (config : value) (d : string),
      In d (_extract_dependencies config) ->
      (PyStr.startswith_any d ref_prefixes = true
       /\ exists key s, key <> "source" /\ has_field config key s
                        /\ PyStr.startswith_any s marker_prefixes = true
                        /\ d = PyStr.strip marker_chars s)
      \/ has_field config "source" d)
  /\ (forall config : value,
        ~ has_field config "source" "aws_vpc.main.id" ->
        ~ In "aws_vpc.main.id" (_extract_dependencies config))
  /\ (forall key : string,
        key <> "source" ->
        _extract_dependencies (VDict [(key, VStr "aws_vpc.main.id")]) = []
        /\ _extract_dependencies (VDict [(key, VStr "${aws_vpc.main.id}")]) = [])
  /\ (forall vpc_id : string,
        vpc_id = "aws_vpc.main.id" \/ vpc_id = "${aws_vpc.main.id}" ->
        exists data,
          parse_terraform "/tmp/tf" (test_fs vpc_id) = inr data
          /\ Dict.keys (resources data) = ["aws_vpc.main"; "aws_subnet.main"]
          /\ option_map Res.dependencies
               (Dict.get (resources data) "aws_subnet.main") = Some []
          /\ nx.nodes (generate_graph data) = ["aws_vpc.main"; "aws_subnet.main"]
          /\ nx.edges (generate_graph data) = []).
Proof.
  assert (Hgen : forall (config : value) (d : string),
      In d (_extract_dependencies config) ->
      (PyStr.startswith_any d ref_prefixes = true
       /\ exists key s, key <> "source" /\ has_field config key s
                        /\ PyStr.startswith_any s marker_prefixes = true
                        /\ d = PyStr.strip marker_chars s)
      \/ has_field config "source" d).
  { intros config d Hd.
    apply in_extract_dependencies, in_extract_refs in Hd.
    destruct Hd as (key & s & Hf & Hd). apply in_scan_string in Hd.
    destruct Hd as [[-> ->]|(Hk & Hm & Hs & Hr)].
    - right. exact Hf.
    - left. split; [exact Hr|]. exists key, s. auto. }
  split; [exact Hgen|]. split; [|split].
  - intros config Hsrc Hd. destruct (Hgen _ _ Hd) as [[Hp _]|H].
    + vm_compute in Hp. discriminate.
    + exact (Hsrc H).
  - intros key Hk. unfold _extract_dependencies.
    rewrite !extract_refs_dict_cons. unfold scan_string.
    destruct (String.eqb_spec key "source") as [H|_]; [contradiction|].
    split; vm_compute; reflexivity.
  - intros vpc_id [->| ->]; eexists; vm_compute; repeat split; reflexivity.
Qed.

Lemma scanner_records_only_prefixed_or_source_witness :
  In "data.aws_ami.ubuntu"
    (_extract_dependencies (VDict [("ami", VStr "${data.aws_ami.ubuntu}")]))
  /\ ((PyStr.startswith_any "data.aws_ami.ubuntu" ref_prefixes = true
       /\ exists key s,
            key <> "source"
            /\ has_field (VDict [("ami", VStr "${data.aws_ami.ubuntu}")]) key s
            /\ PyStr.startswith_any s marker_prefixes = true
            /\ "data.aws_ami.ubuntu" = PyStr.strip marker_chars s)
      \/ has_field (VDict [("ami", VStr "${data.aws_ami.ubuntu}")]) "source"
           "data.aws_ami.ubuntu").
Proof.
  assert (H : In "data.aws_ami.ubuntu"
                (_extract_dependencies
                   (VDict [("ami", VStr "${data.aws_ami.ubuntu}")]))).
  { vm_compute. left. reflexivity. }
  split; [exact H|].
  exact (proj1 scanner_records_only_prefixed_or_source _ _ H).
Defined.

(** C8, as the specification states it, fails: with the [source] rule
    first the code records a [source] string verbatim, with the reference
    rule first the same item records the stripped string. *)
Lemma rule_order_matters :
  let config := VDict [("source", VStr "${module.x}")] in
  extract_refs config = ["${module.x}"]
  /\ extract_refs_ba config = ["module.x"]
  /\ (list_to_set (extract_refs config) : gset string)
     <> list_to_set (extract_refs_ba config).
Proof.
  cbv zeta. split; [reflexivity|]. split; [reflexivity|].
  intros Heq.
  assert (Hin : "module.x" ∈ (list_to_set (extract_refs_ba
            (VDict [("source", VStr "${module.x}")])) : gset string)).
  { apply elem_of_list_to_set, list_elem_of_In. left. reflexivity. }
  rewrite <- Heq in Hin.
  apply elem_of_list_to_set, list_elem_of_In in Hin.
  destruct Hin as [H|[]]. discriminate H.
Qed.

(** C8, amended.  The [source] rule comes first.  The string of a
    [source] field is recorded as it is, whatever it starts with, and the
    reference rule is not applied to it: the item appends that one string,
    and a recorded string is either the value of a [source] field or the
    stripped value of a marked string under another key.  On one item the
    two orders differ exactly when the key is [source] and the string is
    marked and is not its own stripped value with a reference prefix; on a
    body in which no [source] field holds a marked string the two orders
    append the same strings. *)
Theorem source_rule_comes_first :
  (forall (config : value) (s : string),
      has_field config "source" s -> In s (_extract_dependencies config))
  /\ (forall (s : string) (items : list (string * value)),
        extract_refs (VDict (("source", VStr s) :: items))
        = s :: extract_refs (VDict items))
  /\ (forall (config : value) (d : string),
        In d (_extract_dependencies config) <->
        has_field config "source" d
        \/ exists key s,
             key <> "source" /\ has_field config key s
             /\ PyStr.startswith_any s marker_prefixes = true
             /\ d = PyStr.strip marker_chars s
             /\ PyStr.startswith_any d ref_prefixes = true)
  /\ (forall key s : string,
        scan_string_ba key s <> scan_string key s <->
        key = "source"
        /\ PyStr.startswith_any s marker_prefixes = true
        /\ ~ (PyStr.strip marker_chars s = s
              /\ PyStr.startswith_any s ref_prefixes = true))
  /\ (forall config : value,
        (forall s, has_field config "source" s ->
                   PyStr.startswith_any s marker_prefixes = false) ->
        extract_refs_ba config = extract_refs config).
Proof.
  split; [exact source_field_recorded|].
  split; [intros s items; rewrite extract_refs_dict_cons; reflexivity|].
  split; [|split; [|exact extract_refs_ba_agrees]].
  - intros config d. rewrite in_extract_dependencies, in_extract_refs. split.
    + intros (key & s & Hf & Hd). apply in_scan_string in Hd.
      destruct Hd as [[-> ->]|(Hk & Hm & Hs & Hr)]; [left; exact Hf|].
      right. exists key, s. auto.
    + intros [Hf|(key & s & Hk & Hf & Hm & Hs & Hr)].
      * exists "source", d. split; [exact Hf|]. left. reflexivity.
      * exists key, s. split; [exact Hf|]. apply in_scan_string. right. auto.
  - intros key s. unfold scan_string_ba, scan_string.
    destruct (String.eqb_spec key "source") as [->|Hk].
    + destruct (PyStr.startswith_any s marker_prefixes) eqn:Hm; cbv zeta.
      * destruct (PyStr.startswith_any (PyStr.strip marker_chars s) ref_prefixes)
          eqn:Hr.
        -- split.
           ++ intros Hne. split; [reflexivity|]. split; [reflexivity|].
              intros [Hs _]. apply Hne. rewrite Hs. reflexivity.
           ++ intros (_ & _ & Hnot) [= Hs]. apply Hnot.
              split; [exact Hs|]. rewrite <- Hs. exact Hr.
        -- split; [|intros _; discriminate].
           intros _. split; [reflexivity|]. split; [reflexivity|].
           intros [Hs Hp]. rewrite Hs in Hr. congruence.
      * split; [intros Hne; contradiction|intros (_ & [=] & _)].
    + split; [intros Hne; contradiction|intros [H _]; contradiction].
Qed.

Lemma source_rule_comes_first_witness :
  In "${module.x}" (_extract_dependencies (VDict [("source", VStr "${module.x}")]))
  /\ (let config := VDict [("source", VStr "./modules/vpc");
                           ("vpc_id", VStr "${module.network.vpc_id}")] in
      extract_refs_ba config = extract_refs config).
Proof.
  split.
  - apply (proj1 source_rule_comes_first).
    apply field_here. left. reflexivity.
  - cbv zeta. apply (proj2 (proj2 (proj2 (proj2 source_rule_comes_first)))).
    intros s H.
    apply has_field_dict_cons in H. destruct H as [[_ [= <-]]|[H|H]].
    + reflexivity.
    + inversion H.
    + apply has_field_dict_cons in H. destruct H as [[[=] _]|[H|H]].
      * inversion H.
      * inversion H; subst; contradiction.
Defined.

(** C9. A string that is a direct element of a sequence is never recorded,
    whatever it starts with: the scanner returns nothing on a string, an
    element that is a string can be removed from a sequence, anywhere in
    the body, without changing the result, and every recorded string comes
    from an item of a mapping. *)
Theorem list_element_strings_not_scanned :
  (forall s : string, extract_refs (VStr s) = [])
  /\ (forall (l1 l2 : list value) (s : string),
        extract_refs (VList (l1 ++ VStr s :: l2)) = extract_refs (VList (l1 ++ l2)))
  /\ (forall obj : value,
        _extract_dependencies (without_list_strings obj) = _extract_dependencies obj)
  /\ (forall (obj : value) (d : string),
        In d (_extract_dependencies obj) ->
        exists key s, has_field obj key s /\ In d (scan_string key s))
  /\ _extract_dependencies
       (VDict [("depends_on",
                VList [VStr "${data.aws_ami.ubuntu}"; VStr "module.vpc"])]) = [].
Proof.
  split; [reflexivity|]. split; [|split; [|split]].
  - intros l1 l2 s.
    rewrite !extract_refs_list_app, extract_refs_list_cons. reflexivity.
  - intros obj. unfold _extract_dependencies.
    rewrite extract_refs_without_list_strings. reflexivity.
  - intros obj d H. apply in_extract_refs, in_extract_dependencies. exact H.
  - vm_compute. reflexivity.
Qed.

Lemma list_element_strings_not_scanned_witness :
  let obj := VDict [("ami", VStr "${data.aws_ami.ubuntu}");
                    ("depends_on", VList [VStr "module.vpc"])] in
  _extract_dependencies obj = ["data.aws_ami.ubuntu"]
  /\ exists key s, has_field obj key s
                   /\ In "data.aws_ami.ubuntu" (scan_string key s).
Proof.
  cbv zeta. split; [vm_compute; reflexivity|].
  apply (proj1 (proj2 (proj2 (proj2 list_element_strings_not_scanned)))).
  vm_compute. left. reflexivity.
Defined.

(** C10. For a string value that starts with the interpolation marker,
    [data.] or [module.], under a key other than [source], the string that
    is tested and recorded is the value without its leading and trailing
    characters among [$], [{] and [}]: all of them, balanced or not. *)
Theorem strip_drops_every_marker_char (key s : string) :
  key <> "source" ->
  PyStr.startswith_any s marker_prefixes = true ->
  let ref := PyStr.strip marker_chars s in
  (exists pre post,
      s = pre +:+ ref +:+ post
      /\ PyStr.all_in marker_chars pre = true
      /\ PyStr.all_in marker_chars post = true)
  /\ (forall c, PyStr.first_char ref = Some c ->
                PyStr.in_chars marker_chars c = false)
  /\ (forall c, PyStr.last_char ref = Some c ->
                PyStr.in_chars marker_chars c = false)
  /\ extract_refs (VDict [(key, VStr s)]) =
     (if PyStr.startswith_any ref ref_prefixes then [ref] else []).
Proof.
  intros Hk Hm ref. split; [apply strip_split|].
  split; [apply strip_first|]. split; [apply strip_last|].
  rewrite extract_refs_dict_cons. unfold scan_string.
  destruct (String.eqb_spec key "source") as [H|_]; [contradiction|].
  rewrite Hm. cbv zeta. fold ref. apply app_nil_r.
Qed.

Lemma strip_drops_every_marker_char_witness :
  extract_refs (VDict [("ami", VStr "data.a.b}")]) = ["data.a.b"]
  /\ extract_refs (VDict [("vpc", VStr "${module.x")]) = ["module.x"]
  /\ extract_refs (VDict [("vpc", VStr "${{$module.x}}$}")]) = ["module.x"].
Proof.
  split; [|split].
  - exact (proj2 (proj2 (proj2
      (strip_drops_every_marker_char "ami" "data.a.b}"
         ltac:(discriminate) eq_refl)))).
  - exact (proj2 (proj2 (proj2
      (strip_drops_every_marker_char "vpc" "${module.x"
         ltac:(discriminate) eq_refl)))).
  - exact (proj2 (proj2 (proj2
      (strip_drops_every_marker_char "vpc" "${{$module.x}}$}"
         ltac:(discriminate) eq_refl)))).
Defined.

(** ** Dictionaries *)

Section DictFacts.

Context {V : Type}.
Implicit Types (d e : Dict.t V) (k x : string) (v w : V).

Lemma get_In d k v : Dict.get d k = Some v -> In (k, v) d.
Proof.
  induction d as [|[k' v'] d IH]; simpl; [discriminate|].
  destruct (String.eqb_spec k' k) as [->|_].
  - intros [= ->]. left. reflexivity.
  - intros H. right. exact (IH H).
Qed.

Lemma mem_keys d k : Dict.mem d k = true <-> In k (Dict.keys d).
Proof.
  unfold Dict.mem, Dict.keys.
  induction d as [|[k' v'] d IH]; simpl.
  - split; [discriminate|intros []].
  - destruct (String.eqb_spec k' k) as [->|Hne].
    + split; auto.
    + rewrite IH. split; [auto|]. intros [H|H]; [contradiction|exact H].
Qed.

Lemma mem_false_keys d k : Dict.mem d k = false <-> ~ In k (Dict.keys d).
Proof.
  rewrite <- mem_keys. destruct (Dict.mem d k); split; congruence.
Qed.

Lemma keys_set d k v :
  Dict.keys (Dict.set d k v) =
  if Dict.mem d k then Dict.keys d else Dict.keys d ++ [k].
Proof.
  unfold Dict.mem, Dict.keys.
  induction d as [|[k' v'] d IH]; simpl; [reflexivity|].
  destruct (String.eqb_spec k' k) as [->|Hne]; simpl; [reflexivity|].
  rewrite IH. destruct (Dict.get d k); reflexivity.
Qed.

Lemma in_keys_set d k v x :
  In x (Dict.keys (Dict.set d k v)) <-> x = k \/ In x (Dict.keys d).
Proof.
  rewrite keys_set. destruct (Dict.mem d k) eqn:Hm.
  - apply mem_keys in Hm. split; [auto|]. intros [->|H]; assumption.
  - rewrite in_app_iff. simpl. split.
    + intros [H|[<-|[]]]; auto.
    + intros [->|H]; auto.
Qed.

Lemma NoDup_keys_set d k v :
  List.NoDup (Dict.keys d) -> List.NoDup (Dict.keys (Dict.set d k v)).
Proof.
  intros H. rewrite keys_set. destruct (Dict.mem d k) eqn:Hm; [exact H|].
  apply mem_false_keys in Hm.
  apply List.NoDup_app; [exact H|repeat constructor; intros []|].
  intros a Ha [<-|[]]. exact (Hm Ha).
Qed.

Lemma get_set d k v x :
  Dict.get (Dict.set d k v) x = if String.eqb k x then Some v else Dict.get d x.
Proof.
  induction d as [|[k' v'] d IH]; simpl.
  - reflexivity.
  - destruct (String.eqb_spec k' k) as [->|Hne]; simpl.
    + destruct (String.eqb k x); reflexivity.
    + rewrite IH. destruct (String.eqb_spec k' x) as [->|Hx]; [|reflexivity].
      destruct (String.eqb_spec k x) as [->|_]; [contradiction|reflexivity].
Qed.

Lemma in_set d k v x w :
  In (x, w) (Dict.set d k v) -> (x = k /\ w = v) \/ In (x, w) d.
Proof.
  induction d as [|[k' v'] d IH]; simpl.
  - intros [[= <- <-]|[]]. left. auto.
  - destruct (String.eqb_spec k' k) as [->|Hne]; simpl.
    + intros [[= <- <-]|H]; auto.
    + intros [H|H]; [auto|]. destruct (IH H); auto.
Qed.

Lemma Forall_set (P : string * V -> Prop) d k v :
  Forall P d -> P (k, v) -> Forall P (Dict.set d k v).
Proof.
  intros Hd Hv. induction Hd as [|[k' v'] d Hx Hd IH]; simpl.
  - repeat constructor. exact Hv.
  - destruct (String.eqb_spec k' k) as [->|Hne]; constructor; assumption.
Qed.

Lemma length_set_mem d k v :
  Dict.mem d k = true -> length (Dict.set d k v) = length d.
Proof.
  intros H.
  pose proof (keys_set d k v) as Hk. rewrite H in Hk.
  apply (f_equal (@length string)) in Hk.
  unfold Dict.keys in Hk. rewrite !length_map in Hk. exact Hk.
Qed.

Lemma get_update_other d e k :
  ~ In k (Dict.keys e) -> Dict.get (Dict.update d e) k = Dict.get d k.
Proof.
  unfold Dict.update. revert d.
  induction e as [|[k' v'] e IH]; intros d Hk; simpl; [reflexivity|].
  rewrite IH.
  - rewrite get_set. simpl.
    destruct (String.eqb_spec k' k) as [->|_]; [|reflexivity].
    exfalso. apply Hk. left. reflexivity.
  - intros H. apply Hk. right. exact H.
Qed.

Lemma get_update_first d e k v :
  ~ In k (Dict.keys e) -> Dict.get (Dict.update d ((k, v) :: e)) k = Some v.
Proof.
  intros Hk. change (Dict.update d ((k, v) :: e))
    with (Dict.update (Dict.set d k v) e).
  rewrite (get_update_other _ _ _ Hk), get_set, String.eqb_refl. reflexivity.
Qed.

End DictFacts.

(** ** The graph operations *)

Section GraphFacts.

Implicit Types (G : DiGraph) (n u v x y : string).

Lemma in_out_edges adj x y :
  In (x, y) (nx.out_edges adj) <-> exists nbrs, In (x, nbrs) adj /\ In y nbrs.
Proof.
  unfold nx.out_edges. rewrite in_flat_map. split.
  - intros ([k nbrs] & Hin & Hxy). simpl in Hxy.
    apply in_map_iff in Hxy. destruct Hxy as (y' & [= <- <-] & Hy).
    exists nbrs. auto.
  - intros (nbrs & Hin & Hy). exists (x, nbrs). split; [exact Hin|].
    simpl. apply in_map_iff. exists y. auto.
Qed.

Lemma out_edges_set_new adj n :
  Dict.mem adj n = false -> nx.out_edges (Dict.set adj n []) = nx.out_edges adj.
Proof.
  unfold Dict.mem, nx.out_edges.
  induction adj as [|[k nbrs] adj IH]; simpl; [reflexivity|].
  destruct (String.eqb_spec k n) as [->|Hne]; [discriminate|].
  intros H. simpl. rewrite (IH H). reflexivity.
Qed.

Lemma in_add_succ nbrs v y :
  In y (nx.add_succ nbrs v) <-> y = v \/ In y nbrs.
Proof.
  unfold nx.add_succ. destruct (existsb (String.eqb v) nbrs) eqn:He.
  - apply existsb_exists in He. destruct He as (v' & Hin & Heq).
    apply String.eqb_eq in Heq. subst v'.
    split; [auto|]. intros [->|H]; assumption.
  - rewrite in_app_iff. simpl. split.
    + intros [H|[<-|[]]]; auto.
    + intros [->|H]; auto.
Qed.

Lemma NoDup_add_succ nbrs v :
  List.NoDup nbrs -> List.NoDup (nx.add_succ nbrs v).
Proof.
  intros H. unfold nx.add_succ.
  destruct (existsb (String.eqb v) nbrs) eqn:He; [exact H|].
  apply List.NoDup_app; [exact H|repeat constructor; intros []|].
  intros a Ha [<-|[]].
  assert (Ht : existsb (String.eqb v) nbrs = true).
  { apply existsb_exists. exists v. split; [exact Ha|apply String.eqb_refl]. }
  congruence.
Qed.

Lemma in_out_edges_add_succ adj u v x y :
  Dict.mem adj u = true ->
  In (x, y) (nx.out_edges
               (Dict.set adj u (nx.add_succ (Dict.get_default adj u []) v)))
  <-> (x = u /\ y = v) \/ In (x, y) (nx.out_edges adj).
Proof.
  unfold Dict.mem, Dict.get_default, nx.out_edges.
  induction adj as [|[k nbrs] adj IH]; simpl; [discriminate|].
  destruct (String.eqb_spec k u) as [->|Hne]; simpl; intros Hm.
  - rewrite !in_app_iff, !in_map_iff.
    setoid_rewrite in_add_succ. split.
    + intros [(y' & Heq & Hy)|H]; [|auto].
      inversion Heq; subst. destruct Hy as [->|Hy]; [auto|].
      right. left. eexists. split; [reflexivity|exact Hy].
    + intros [[-> ->]|[(y' & Heq & Hy)|H]]; [| |auto].
      * left. exists v. auto.
      * inversion Heq; subst. left. eexists. split; [reflexivity|auto].
  - rewrite !in_app_iff, (IH Hm). tauto.
Qed.

Lemma NoDup_out_edges adj :
  List.NoDup (Dict.keys adj) ->
  Forall (fun p => List.NoDup (snd p)) adj ->
  List.NoDup (nx.out_edges adj).
Proof.
  unfold Dict.keys, nx.out_edges.
  induction adj as [|[k nbrs] adj IH]; simpl; intros Hk Hn; [constructor|].
  inversion Hk as [|? ? Hnotin Hk']; subst.
  inversion Hn as [|? ? Hnbrs Hn']; subst. simpl in Hnbrs.
  apply List.NoDup_app.
  - clear -Hnbrs. induction Hnbrs as [|a l Ha Hl IHl]; simpl; constructor.
    + rewrite in_map_iff. intros (a' & [= ->] & H). exact (Ha H).
    + exact IHl.
  - exact (IH Hk' Hn').
  - intros [x y] Hxy Hrest.
    apply in_map_iff in Hxy. destruct Hxy as (y' & [= <- <-] & _).
    apply in_out_edges in Hrest. destruct Hrest as (nbrs' & Hin & _).
    apply Hnotin. apply in_map_iff. exists (k, nbrs'). auto.
Qed.

End GraphFacts.

Section GraphOps.

Implicit Types (G : DiGraph) (n u v x y name : string) (a : attrs).

Lemma graph_ok_empty : graph_ok nx.empty.
Proof. repeat split; constructor. Qed.

Lemma has_node_nodes G n : nx.has_node G n = true <-> In n (nx.nodes G).
Proof. apply mem_keys. Qed.

Lemma mem_adj_node G n :
  graph_ok G -> Dict.mem (_adj G) n = Dict.mem (_node G) n.
Proof.
  intros (Hk & _). destruct (Dict.mem (_node G) n) eqn:H.
  - apply mem_keys. rewrite <- Hk. apply mem_keys. exact H.
  - apply mem_false_keys. rewrite <- Hk. apply mem_false_keys. exact H.
Qed.

Lemma add_node_ok G n a : graph_ok G -> graph_ok (nx.add_node G n a).
Proof.
  intros HG. pose proof (mem_adj_node G n HG) as Hm.
  destruct HG as (Hk & Hnd & Hf). unfold nx.add_node.
  destruct (Dict.mem (_adj G) n) eqn:Ha; repeat split; simpl.
  - rewrite keys_set, <- Hm. exact Hk.
  - exact Hnd.
  - exact Hf.
  - rewrite !keys_set, <- Hm, Ha, Hk. reflexivity.
  - apply NoDup_keys_set. exact Hnd.
  - apply Forall_set; [exact Hf|constructor].
Qed.

Lemma add_node_nodes G n a x :
  In x (nx.nodes (nx.add_node G n a)) <-> x = n \/ In x (nx.nodes G).
Proof.
  unfold nx.nodes, nx.add_node.
  destruct (Dict.mem (_adj G) n); simpl; apply in_keys_set.
Qed.

Lemma add_node_edges G n a : nx.edges (nx.add_node G n a) = nx.edges G.
Proof.
  unfold nx.edges, nx.add_node.
  destruct (Dict.mem (_adj G) n) eqn:Ha; simpl; [reflexivity|].
  apply out_edges_set_new. exact Ha.
Qed.

Lemma ensure_node_present G n :
  graph_ok G -> nx.has_node G n = true -> nx.ensure_node G n = G.
Proof.
  intros HG H. unfold nx.ensure_node. rewrite (mem_adj_node G n HG).
  unfold nx.has_node in H. rewrite H. reflexivity.
Qed.

(** An edge between two nodes of the graph adds no node. *)
Lemma add_edge_between_nodes G u v :
  graph_ok G -> nx.has_node G u = true -> nx.has_node G v = true ->
  graph_ok (nx.add_edge G u v)
  /\ _node (nx.add_edge G u v) = _node G
  /\ forall x y, In (x, y) (nx.edges (nx.add_edge G u v)) <->
                 (x = u /\ y = v) \/ In (x, y) (nx.edges G).
Proof.
  intros HG Hu Hv. unfold nx.add_edge.
  rewrite (ensure_node_present G u HG Hu), (ensure_node_present G v HG Hv).
  cbv zeta.
  assert (Hm : Dict.mem (_adj G) u = true).
  { rewrite (mem_adj_node G u HG). exact Hu. }
  destruct HG as (Hk & Hnd & Hf). split; [|split].
  - repeat split; simpl.
    + rewrite keys_set, Hm. exact Hk.
    + rewrite keys_set, Hm. exact Hnd.
    + apply Forall_set; [exact Hf|]. simpl. apply NoDup_add_succ.
      unfold Dict.get_default.
      destruct (Dict.get (_adj G) u) eqn:Hg; [|constructor].
      apply get_In in Hg. rewrite List.Forall_forall in Hf. exact (Hf _ Hg).
  - reflexivity.
  - intros x y. unfold nx.edges. simpl. apply in_out_edges_add_succ. exact Hm.
Qed.

Lemma add_dependency_edges_spec name (deps : list string) G :
  graph_ok G -> In name (nx.nodes G) ->
  graph_ok (add_dependency_edges G name deps)
  /\ _node (add_dependency_edges G name deps) = _node G
  /\ forall x y,
       In (x, y) (nx.edges (add_dependency_edges G name deps)) <->
       In (x, y) (nx.edges G)
       \/ (y = name /\ In x deps /\ In x (nx.nodes G)).
Proof.
  unfold add_dependency_edges. revert G.
  induction deps as [|dep deps IH]; intros G HG Hn; simpl.
  - split; [exact HG|]. split; [reflexivity|].
    intros x y. split; [auto|]. intros [H|(_ & [] & _)]. exact H.
  - destruct (nx.has_node G dep) eqn:Hd.
    + destruct (add_edge_between_nodes G dep name HG Hd
                  (proj2 (has_node_nodes G name) Hn)) as (HG' & Hnode & Hedges).
      assert (Hn' : In name (nx.nodes (nx.add_edge G dep name))).
      { unfold nx.nodes. rewrite Hnode. exact Hn. }
      destruct (IH _ HG' Hn') as (IH1 & IH2 & IH3).
      split; [exact IH1|]. split; [rewrite IH2; exact Hnode|].
      intros x y. rewrite IH3, Hedges. unfold nx.nodes. rewrite Hnode.
      fold (nx.nodes G). apply has_node_nodes in Hd. split.
      * intros [[[-> ->]|H]|(-> & Hx & Hx')]; [right|left|right]; auto.
      * intros [H|(-> & [->|Hx] & Hx')];
          [left; right; exact H|left; left; auto|right; auto].
    + destruct (IH _ HG Hn) as (IH1 & IH2 & IH3).
      split; [exact IH1|]. split; [exact IH2|].
      intros x y. rewrite IH3. split.
      * intros [H|(-> & Hx & Hx')]; [left|right]; auto.
      * intros [H|(-> & [->|Hx] & Hx')]; [left; exact H| |right; auto].
        exfalso. apply has_node_nodes in Hx'. congruence.
Qed.

Section Loops.

Context {A : Type} (name : A -> string).

Lemma fold_add_node (node_attrs : A -> attrs) (l : list A) G :
  graph_ok G ->
  graph_ok (fold_left
              (fun G item => nx.add_node G (name item) (node_attrs item)) l G)
  /\ (forall x,
        In x (nx.nodes
                (fold_left
                   (fun G item => nx.add_node G (name item) (node_attrs item))
                   l G))
        <-> In x (nx.nodes G) \/ In x (map name l))
  /\ nx.edges (fold_left
                 (fun G item => nx.add_node G (name item) (node_attrs item))
                 l G)
     = nx.edges G.
Proof.
  revert G. induction l as [|item l IH]; intros G HG; simpl.
  - split; [exact HG|]. split; [|reflexivity]. intros x. tauto.
  - destruct (IH _ (add_node_ok G (name item) (node_attrs item) HG))
      as (H1 & H2 & H3).
    split; [exact H1|]. split.
    + intros x. rewrite H2, add_node_nodes.
      split; [intros [[->|H]|H]|intros [H|[<-|H]]]; auto.
    + rewrite H3. apply add_node_edges.
Qed.

Lemma fold_dependency_edges (deps : A -> list string) (l : list A) G :
  graph_ok G ->
  (forall item, In item l -> In (name item) (nx.nodes G)) ->
  graph_ok (fold_left
              (fun G item => add_dependency_edges G (name item) (deps item))
              l G)
  /\ _node (fold_left
              (fun G item => add_dependency_edges G (name item) (deps item))
              l G)
     = _node G
  /\ forall x y,
       In (x, y)
          (nx.edges
             (fold_left
                (fun G item => add_dependency_edges G (name item) (deps item))
                l G))
       <-> In (x, y) (nx.edges G)
           \/ (In x (nx.nodes G)
               /\ exists item, In item l /\ y = name item /\ In x (deps item)).
Proof.
  revert G. induction l as [|item l IH]; intros G HG Hl; simpl.
  - split; [exact HG|]. split; [reflexivity|].
    intros x y. split; [auto|]. intros [H|(_ & ? & [] & _)]. exact H.
  - destruct (add_dependency_edges_spec (name item) (deps item) G HG
                (Hl item (or_introl eq_refl))) as (HG' & Hnode & Hedges).
    assert (Hl' : forall item', In item' l ->
              In (name item')
                 (nx.nodes (add_dependency_edges G (name item) (deps item)))).
    { intros item' H. unfold nx.nodes. rewrite Hnode.
      apply Hl. right. exact H. }
    destruct (IH _ HG' Hl') as (IH1 & IH2 & IH3).
    split; [exact IH1|]. split; [rewrite IH2; exact Hnode|].
    intros x y. rewrite IH3, Hedges. unfold nx.nodes. rewrite Hnode.
    fold (nx.nodes G). split.
    + intros [[H|(-> & Hx & Hx')]|(Hx & item' & Hin & -> & Hd)]; auto.
      * right. split; [exact Hx'|]. exists item. auto.
      * right. split; [exact Hx|]. exists item'. auto.
    + intros [H|(Hx & item' & [<-|Hin] & -> & Hd)]; auto.
      right. split; [exact Hx|]. exists item'. auto.
Qed.

End Loops.

End GraphOps.

(** ** Every node written by [add_node] carries its kind *)

Lemma add_node_typed (G : DiGraph) (n t : string) (e : attrs) :
  ~ In "type" (Dict.keys e) -> In t node_kinds ->
  Forall node_typed (_node G) ->
  Forall node_typed (_node (nx.add_node G n (("type", t) :: e))).
Proof.
  intros He Ht HG. unfold nx.add_node.
  destruct (Dict.mem (_adj G) n); cbn [_node]; (apply Forall_set; [exact HG|]);
    exists t; (split; [|exact Ht]); cbn [snd]; apply get_update_first; exact He.
Qed.

Lemma fold_add_node_typed {A : Type} (name : A -> string)
    (node_attrs : A -> attrs) (l : list A) (G : DiGraph) :
  (forall item, exists t e,
      node_attrs item = ("type", t) :: e
      /\ ~ In "type" (Dict.keys e) /\ In t node_kinds) ->
  Forall node_typed (_node G) ->
  Forall node_typed
    (_node (fold_left
              (fun G item => nx.add_node G (name item) (node_attrs item)) l G)).
Proof.
  intros Hattrs. revert G. induction l as [|item l IH]; intros G HG; simpl.
  - exact HG.
  - apply IH. destruct (Hattrs item) as (t & e & -> & He & Ht).
    apply add_node_typed; assumption.
Qed.

(** ** [generate_graph]: its nodes and its edges *)

Lemma in_record_dependencies (data : tf_data) (y : string) (deps : list string) :
  In (y, deps) (record_dependencies data) <->
  (exists item, In item (resources data)
                /\ y = fst item /\ deps = Res.dependencies (snd item))
  \/ (exists item, In item (data_sources data)
                   /\ y = fst item /\ deps = Res.dependencies (snd item))
  \/ (exists item, In item (modules data)
                   /\ y = fst item /\ deps = Mod.dependencies (snd item)).
Proof.
  unfold record_dependencies. rewrite !in_app_iff, !in_map_iff.
  split.
  - intros [(item & [= <- <-] & H)|[(item & [= <- <-] & H)|(item & [= <- <-] & H)]];
      [left|right; left|right; right]; exists item; auto.
  - intros [(item & H & -> & ->)|[(item & H & -> & ->)|(item & H & -> & ->)]];
      [left|right; left|right; right]; exists item; auto.
Qed.

Lemma record_dependencies_names (data : tf_data) (y : string) (deps : list string) :
  In (y, deps) (record_dependencies data) -> In y (record_names data).
Proof.
  unfold record_names, Dict.keys. rewrite in_record_dependencies, !in_app_iff.
  intros [(item & H & -> & _)|[(item & H & -> & _)|(item & H & -> & _)]];
    [left|right; left|right; right]; apply in_map; exact H.
Qed.

Lemma generate_graph_spec (data : tf_data) :
  graph_ok (generate_graph data)
  /\ (forall n, In n (nx.nodes (generate_graph data)) <-> In n (record_names data))
  /\ (forall x y,
        In (x, y) (nx.edges (generate_graph data)) <->
        In x (record_names data)
        /\ exists deps, In (y, deps) (record_dependencies data) /\ In x deps)
  /\ Forall node_typed (nx.nodes_data (generate_graph data)).
Proof.
  unfold generate_graph, nx.nodes_data. cbv zeta.
  assert (T0 : Forall node_typed (_node nx.empty)) by constructor.
  destruct (fold_add_node (A := string * Res.info) fst
              (fun item => resource_attrs (snd item))
              (resources data) nx.empty graph_ok_empty) as (Ok1 & N1 & E1).
  cbv beta in Ok1, N1, E1.
  pose proof (fold_add_node_typed (A := string * Res.info) fst
                (fun item => resource_attrs (snd item)) (resources data) nx.empty)
    as T1.
  cbv beta in T1. unfold resource_attrs at 1 in T1.
  specialize (T1 ltac:(intros item; do 2 eexists; split; [reflexivity|];
                        split; [simpl; intuition discriminate|simpl; auto]) T0).
  set (G1 := fold_left _ (resources data) nx.empty) in *.
  destruct (fold_add_node (A := string * Res.info) fst
              (fun item => data_attrs (snd item))
              (data_sources data) G1 Ok1) as (Ok2 & N2 & E2).
  cbv beta in Ok2, N2, E2.
  pose proof (fold_add_node_typed (A := string * Res.info) fst
                (fun item => data_attrs (snd item)) (data_sources data) G1)
    as T2.
  cbv beta in T2. unfold data_attrs at 1 in T2.
  specialize (T2 ltac:(intros item; do 2 eexists; split; [reflexivity|];
                        split; [simpl; intuition discriminate|simpl; auto]) T1).
  set (G2 := fold_left _ (data_sources data) G1) in *.
  destruct (fold_add_node (A := string * Mod.info) fst
              (fun item => module_attrs (fst item) (snd item))
              (modules data) G2 Ok2) as (Ok3 & N3 & E3).
  cbv beta in Ok3, N3, E3.
  pose proof (fold_add_node_typed (A := string * Mod.info) fst
                (fun item => module_attrs (fst item) (snd item)) (modules data) G2)
    as T3.
  cbv beta in T3. unfold module_attrs at 1 in T3.
  specialize (T3 ltac:(intros item; do 2 eexists; split; [reflexivity|];
                        split; [simpl; intuition discriminate|simpl; auto]) T2).
  set (G3 := fold_left _ (modules data) G2) in *.
  assert (HN : forall x, In x (nx.nodes G3) <-> In x (record_names data)).
  { intros x. unfold record_names, Dict.keys.
    rewrite N3, N2, N1, !in_app_iff. simpl. tauto. }
  assert (HE : nx.edges G3 = []).
  { rewrite E3, E2, E1. reflexivity. }
  destruct (fold_dependency_edges (A := string * Res.info) fst
              (fun item => Res.dependencies (snd item))
              (resources data) G3 Ok3) as (Ok4 & Nd4 & Ed4).
  { intros item H. apply HN. unfold record_names, Dict.keys.
    rewrite !in_app_iff. left. apply in_map. exact H. }
  cbv beta in Ok4, Nd4, Ed4.
  set (G4 := fold_left _ (resources data) G3) in *.
  destruct (fold_dependency_edges (A := string * Res.info) fst
              (fun item => Res.dependencies (snd item))
              (data_sources data) G4 Ok4) as (Ok5 & Nd5 & Ed5).
  { intros item H. unfold nx.nodes. rewrite Nd4. apply HN.
    unfold record_names, Dict.keys.
    rewrite !in_app_iff. right. left. apply in_map. exact H. }
  cbv beta in Ok5, Nd5, Ed5.
  set (G5 := fold_left _ (data_sources data) G4) in *.
  destruct (fold_dependency_edges (A := string * Mod.info) fst
              (fun item => Mod.dependencies (snd item))
              (modules data) G5 Ok5) as (Ok6 & Nd6 & Ed6).
  { intros item H. unfold nx.nodes. rewrite Nd5, Nd4. apply HN.
    unfold record_names, Dict.keys.
    rewrite !in_app_iff. right. right. apply in_map. exact H. }
  cbv beta in Ok6, Nd6, Ed6.
  set (G6 := fold_left _ (modules data) G5) in *.
  assert (HN4 : nx.nodes G4 = nx.nodes G3) by (unfold nx.nodes; rewrite Nd4; reflexivity).
  assert (HN5 : nx.nodes G5 = nx.nodes G3) by (unfold nx.nodes; rewrite Nd5, Nd4; reflexivity).
  split; [exact Ok6|]. split; [|split].
  - intros n. unfold nx.nodes. rewrite Nd6, Nd5, Nd4. apply HN.
  - intros x y. rewrite Ed6, Ed5, Ed4, HE, HN5, HN4. simpl. rewrite !HN.
    setoid_rewrite in_record_dependencies. split.
    + intros [[[[]|(Hx & item & H & -> & Hd)]|(Hx & item & H & -> & Hd)]
             |(Hx & item & H & -> & Hd)];
        (split; [exact Hx|]); eexists; (split; [|exact Hd]).
      * left. exists item. auto.
      * right. left. exists item. auto.
      * right. right. exists item. auto.
    + intros (Hx & deps & [(item & H & -> & ->)|[(item & H & -> & ->)
                                                |(item & H & -> & ->)]] & Hd).
      * left. left. right. split; [exact Hx|]. exists item. auto.
      * left. right. split; [exact Hx|]. exists item. auto.
      * right. split; [exact Hx|]. exists item. auto.
  - rewrite Nd6, Nd5, Nd4. exact T3.
Qed.

Lemma NoDup_edges (G : DiGraph) : graph_ok G -> List.NoDup (nx.edges G).
Proof. intros (_ & Hk & Hf). apply NoDup_out_edges; assumption. Qed.

Lemma NoDup_nodes (G : DiGraph) : graph_ok G -> List.NoDup (nx.nodes G).
Proof. intros (Hk & Hnd & _). unfold nx.nodes. rewrite Hk. exact Hnd. Qed.

(** ** [parse_terraform]: what every run preserves *)

Section ParseInvariant.

Variable P : tf_data -> Prop.

Hypothesis P_resource : forall file ty nm cfg st,
    P st -> P (state_of (store_resource file ty nm cfg st)).
Hypothesis P_data : forall file ty nm cfg st,
    P st -> P (state_of (store_data file ty nm cfg st)).
Hypothesis P_module : forall file nm cfg st,
    P st -> P (state_of (store_module file nm cfg st)).

Lemma and_then_keeps (o : outcome) (k : tf_data -> outcome) :
  P (state_of o) -> (forall st, P st -> P (state_of (k st))) ->
  P (state_of (o >>> k)).
Proof. destruct o as [st|st]; simpl; auto. Qed.

Lemma for_each_keeps {A : Type} (l : list (entry A))
    (body : string -> A -> tf_data -> outcome) (st : tf_data) :
  (forall label content st, P st -> P (state_of (body label content st))) ->
  P st -> P (state_of (for_each l body st)).
Proof.
  intros Hbody. revert st.
  induction l as [|[label content|] l IH]; intros st Hst; simpl.
  - exact Hst.
  - apply and_then_keeps; [apply Hbody; exact Hst|exact IH].
  - exact Hst.
Qed.

Lemma if_present_keeps {A : Type} (block : option (list (entry A)))
    (body : string -> A -> tf_data -> outcome) (st : tf_data) :
  (forall label content st, P st -> P (state_of (body label content st))) ->
  P st -> P (state_of (if_present block body st)).
Proof.
  intros Hbody Hst. destruct block as [l|]; simpl; [|exact Hst].
  apply for_each_keeps; assumption.
Qed.

Lemma extract_records_keeps (file : string) (parsed : document) (st : tf_data) :
  P st -> P (state_of (extract_records file parsed st)).
Proof.
  intros Hst. unfold extract_records.
  apply and_then_keeps; [apply and_then_keeps|].
  - apply if_present_keeps; [|exact Hst].
    intros ty instances st' Hst'. apply for_each_keeps; [|exact Hst'].
    intros nm cfg st''. apply P_resource.
  - intros st' Hst'. apply if_present_keeps; [|exact Hst'].
    intros ty instances st'' Hst''. apply for_each_keeps; [|exact Hst''].
    intros nm cfg st'''. apply P_data.
  - intros st' Hst'. apply if_present_keeps; [|exact Hst'].
    intros nm cfg st''. apply P_module.
Qed.

Lemma parse_file_keeps (st : tf_data) (tf : tf_file) :
  P st -> P (parse_file st tf).
Proof.
  intros Hst. unfold parse_file. destruct (loads tf) as [parsed|]; [|exact Hst].
  apply extract_records_keeps. exact Hst.
Qed.

Lemma fold_parse_file_keeps (l : list tf_file) (st : tf_data) :
  P st -> P (fold_left parse_file l st).
Proof.
  revert st. induction l as [|tf l IH]; intros st Hst; simpl; [exact Hst|].
  apply IH. apply parse_file_keeps. exact Hst.
Qed.

Lemma parse_terraform_keeps (root : string) (fs : fs_view) (data : tf_data) :
  P {| resources := []; data_sources := []; modules := [];
       path := PyPath.str root |} ->
  parse_terraform root fs = inr data -> P data.
Proof.
  intros Hinit. unfold parse_terraform.
  destruct (negb (path_exists fs)); [discriminate|].
  destruct (rglob_tf fs) as [|tf tfs]; [discriminate|].
  intros [= <-]. apply (fold_parse_file_keeps (tf :: tfs)). exact Hinit.
Qed.

End ParseInvariant.

Lemma length_append (s1 s2 : string) :
  String.length (s1 +:+ s2) = String.length s1 + String.length s2.
Proof.
  induction s1 as [|c s1 IH]; [reflexivity|].
  change (S (String.length (s1 +:+ s2)) = S (String.length s1 + String.length s2)).
  rewrite IH. reflexivity.
Qed.

Lemma parse_terraform_keyed (root : string) (fs : fs_view) (data : tf_data) :
  parse_terraform root fs = inr data -> keyed_by_type_and_name data.
Proof.
  apply parse_terraform_keeps.
  - intros file ty nm cfg st [Hr Hd]. split; simpl; [|exact Hd].
    intros key info H. apply in_set in H. destruct H as [[-> ->]|H]; [|auto].
    reflexivity.
  - intros file ty nm cfg st [Hr Hd]. split; simpl; [exact Hr|].
    intros key info H. apply in_set in H. destruct H as [[-> ->]|H]; [|auto].
    reflexivity.
  - intros file nm cfg st H. exact H.
  - split; intros key info [].
Qed.

Lemma in_record_bodies (data : tf_data) (name : string) (config : value)
    (deps : list string) :
  In (name, config, deps) (record_bodies data) <->
  (exists info, In (name, info) (resources data)
                /\ config = Res.config info /\ deps = Res.dependencies info)
  \/ (exists info, In (name, info) (data_sources data)
                   /\ config = Res.config info /\ deps = Res.dependencies info)
  \/ (exists info, In (name, info) (modules data)
                   /\ config = Mod.config info /\ deps = Mod.dependencies info).
Proof.
  unfold record_bodies. rewrite !in_app_iff, !in_map_iff. split.
  - intros [([k info] & [= <- <- <-] & H)|[([k info] & [= <- <- <-] & H)
                                          |([k info] & [= <- <- <-] & H)]];
      [left|right; left|right; right]; exists info; auto.
  - intros [(info & H & -> & ->)|[(info & H & -> & ->)|(info & H & -> & ->)]];
      [left|right; left|right; right]; exists (name, info); auto.
Qed.

Lemma record_bodies_dependencies (data : tf_data) (name : string)
    (config : value) (deps : list string) :
  In (name, config, deps) (record_bodies data) ->
  In (name, deps) (record_dependencies data).
Proof.
  rewrite in_record_bodies, in_record_dependencies.
  intros [(info & H & _ & ->)|[(info & H & _ & ->)|(info & H & _ & ->)]];
    [left|right; left|right; right]; exists (name, info); auto.
Qed.

Lemma parse_terraform_scanned (root : string) (fs : fs_view) (data : tf_data) :
  parse_terraform root fs = inr data -> dependencies_scanned data.
Proof.
  apply parse_terraform_keeps; unfold dependencies_scanned.
  - intros file ty nm cfg st IH name config deps H.
    apply in_record_bodies in H. simpl in H.
    destruct H as [(info & H & -> & ->)|H].
    + apply in_set in H. destruct H as [[-> ->]|H]; [reflexivity|].
      apply (IH name). apply in_record_bodies. left. exists info. auto.
    + apply (IH name). apply in_record_bodies. right. exact H.
  - intros file ty nm cfg st IH name config deps H.
    apply in_record_bodies in H. simpl in H.
    destruct H as [H|[(info & H & -> & ->)|H]].
    + apply (IH name). apply in_record_bodies. left. exact H.
    + apply in_set in H. destruct H as [[-> ->]|H]; [reflexivity|].
      apply (IH name). apply in_record_bodies. right. left. exists info. auto.
    + apply (IH name). apply in_record_bodies. right. right. exact H.
  - intros file nm cfg st IH name config deps H.
    apply in_record_bodies in H. simpl in H.
    destruct H as [H|[H|(info & H & -> & ->)]].
    + apply (IH name). apply in_record_bodies. left. exact H.
    + apply (IH name). apply in_record_bodies. right. left. exact H.
    + apply in_set in H. destruct H as [[-> ->]|H]; [reflexivity|].
      apply (IH name). apply in_record_bodies. right. right. exists info. auto.
  - intros name config deps H. apply in_record_bodies in H. simpl in H.
    destruct H as [(? & [] & _)|[(? & [] & _)|(? & [] & _)]].
Qed.

(** ** Claims on the graph *)

(** C1, as the specification states it, fails: the instance refers to the
    data source through the [data.] prefix, by its [id] attribute, the data
    source is a record, and the graph has both nodes and no edge.  The
    scanner records the whole stripped string, [data.aws_ami.ubuntu.id],
    and the assembler joins a dependency to a record only when the string
    is the key of the record. *)
Lemma prefixed_reference_without_edge :
  exists data,
    parse_terraform "/tmp/tf" ami_id_fs = inr data
    /\ In "data.aws_ami.ubuntu" (record_names data)
    /\ (exists config,
          In ("aws_instance.web", config, _extract_dependencies config)
             (record_bodies data)
          /\ has_field config "ami" "${data.aws_ami.ubuntu.id}")
    /\ PyStr.startswith_any "${data.aws_ami.ubuntu.id}" marker_prefixes = true
    /\ PyStr.strip marker_chars "${data.aws_ami.ubuntu.id}"
       = "data.aws_ami.ubuntu" +:+ ".id"
    /\ PyStr.startswith_any (PyStr.strip marker_chars "${data.aws_ami.ubuntu.id}")
         ref_prefixes = true
    /\ nx.nodes (generate_graph data) = ["aws_instance.web"; "data.aws_ami.ubuntu"]
    /\ ~ In ("data.aws_ami.ubuntu", "aws_instance.web")
            (nx.edges (generate_graph data))
    /\ nx.edges (generate_graph data) = [].
Proof.
  eexists. split; [vm_compute; reflexivity|].
  split; [vm_compute; auto|].
  split.
  { exists (VDict [("ami", VStr "${data.aws_ami.ubuntu.id}");
                   ("instance_type", VStr "t3.micro")]).
    split; [vm_compute; left; reflexivity|].
    apply field_here. left. reflexivity. }
  split; [reflexivity|]. split; [reflexivity|]. split; [reflexivity|].
  split; [reflexivity|]. split; [|reflexivity].
  vm_compute. intros [].
Qed.

(** C1, amended.  When the configuration body of record [B] has a mapping
    item for which the scanner records the string [A] (a [source] field
    whose value is [A], or under another key a marked string whose stripped
    value is [A] and starts with [data.] or [module.]), and [A] is the key
    of a record, the graph has the nodes [A] and [B] and the edge from [A]
    to [B], once; an edge from [B] to [A] comes only from a dependency of
    [A] on [B]. *)
Theorem reference_gives_edge (data : tf_data) (A B key s : string)
    (config : value) :
  In (B, config, _extract_dependencies config) (record_bodies data) ->
  has_field config key s ->
  recognized_reference key s A ->
  In A (record_names data) ->
  In A (nx.nodes (generate_graph data))
  /\ In B (nx.nodes (generate_graph data))
  /\ In (A, B) (nx.edges (generate_graph data))
  /\ List.NoDup (nx.edges (generate_graph data))
  /\ (In (B, A) (nx.edges (generate_graph data)) ->
      exists deps, In (A, deps) (record_dependencies data) /\ In B deps).
Proof.
  intros HB Hfield Href HA.
  destruct (generate_graph_spec data) as (Hok & Hnodes & Hedges & _).
  assert (Hdep : In A (_extract_dependencies config)).
  { apply in_extract_dependencies, in_extract_refs. exists key, s.
    split; [exact Hfield|]. apply recognized_reference_scan. exact Href. }
  apply record_bodies_dependencies in HB.
  split; [apply Hnodes; exact HA|].
  split; [apply Hnodes; exact (record_dependencies_names _ _ _ HB)|].
  split; [apply Hedges; split; [exact HA|]; eexists; split; eassumption|].
  split; [exact (NoDup_edges _ Hok)|].
  intros H. apply Hedges in H. exact (proj2 H).
Qed.

Lemma reference_gives_edge_witness :
  exists data,
    parse_terraform "/tmp/tf" ami_fs = inr data
    /\ In "data.aws_ami.ubuntu" (nx.nodes (generate_graph data))
    /\ In "aws_instance.web" (nx.nodes (generate_graph data))
    /\ In ("data.aws_ami.ubuntu", "aws_instance.web")
          (nx.edges (generate_graph data))
    /\ List.NoDup (nx.edges (generate_graph data))
    /\ (In ("aws_instance.web", "data.aws_ami.ubuntu")
           (nx.edges (generate_graph data)) ->
        exists deps, In ("data.aws_ami.ubuntu", deps) (record_dependencies data)
                     /\ In "aws_instance.web" deps).
Proof.
  eexists. split; [vm_compute; reflexivity|].
  apply (reference_gives_edge _ "data.aws_ami.ubuntu" "aws_instance.web"
           "ami" "${data.aws_ami.ubuntu}"
           (VDict [("ami", VStr "${data.aws_ami.ubuntu}");
                   ("instance_type", VStr "t3.micro")])).
  - vm_compute. left. reflexivity.
  - apply field_here. left. reflexivity.
  - right. repeat split; try reflexivity. discriminate.
  - vm_compute. auto.
Defined.

(** C2. The nodes of the assembled graph are the record names, each once.
    Every edge goes from a dependency that is a node to the record that
    lists it, a dependency that is not a node leaves the graph as it is,
    and a string that names no record is neither a node nor the source of
    an edge. *)
Theorem nodes_are_records_edges_between_nodes (data : tf_data) :
  (forall n, In n (nx.nodes (generate_graph data)) <-> In n (record_names data))
  /\ List.NoDup (nx.nodes (generate_graph data))
  /\ (forall dep dependent,
        In (dep, dependent) (nx.edges (generate_graph data)) ->
        In dep (nx.nodes (generate_graph data))
        /\ In dependent (nx.nodes (generate_graph data))
        /\ exists deps, In (dependent, deps) (record_dependencies data)
                        /\ In dep deps)
  /\ (forall (G : DiGraph) (name dep : string),
        nx.has_node G dep = false -> add_dependency_edges G name [dep] = G)
  /\ (forall dep,
        ~ In dep (record_names data) ->
        ~ In dep (nx.nodes (generate_graph data))
        /\ forall dependent,
             ~ In (dep, dependent) (nx.edges (generate_graph data))).
Proof.
  destruct (generate_graph_spec data) as (Hok & Hnodes & Hedges & _).
  split; [exact Hnodes|]. split; [exact (NoDup_nodes _ Hok)|].
  split; [|split].
  - intros dep dependent H. apply Hedges in H.
    destruct H as (Hdep & deps & Hrec & Hin).
    split; [apply Hnodes; exact Hdep|].
    split; [apply Hnodes; exact (record_dependencies_names _ _ _ Hrec)|].
    exists deps. auto.
  - intros G name dep H. unfold add_dependency_edges. simpl. rewrite H.
    reflexivity.
  - intros dep Hdep. split.
    + intros H. apply Hdep, Hnodes, H.
    + intros dependent H. apply Hedges in H. exact (Hdep (proj1 H)).
Qed.

Lemma nodes_are_records_edges_between_nodes_witness :
  ~ In "aws_vpc.main" (record_names dangling_data)
  /\ ~ In "aws_vpc.main" (nx.nodes (generate_graph dangling_data))
  /\ forall dependent,
       ~ In ("aws_vpc.main", dependent) (nx.edges (generate_graph dangling_data)).
Proof.
  assert (H : ~ In "aws_vpc.main" (record_names dangling_data)).
  { vm_compute. intros [H|[]]. discriminate H. }
  split; [exact H|].
  exact (proj2 (proj2 (proj2 (proj2
           (nodes_are_records_edges_between_nodes dangling_data))))
           "aws_vpc.main" H).
Defined.

(** The graph of [test_generate_graph]: two nodes and the one edge from the
    VPC to the subnet; without the VPC record, one node and no edge. *)
Example test_generate_graph :
  nx.nodes (generate_graph test_graph_data) = ["aws_vpc.main"; "aws_subnet.main"]
  /\ nx.edges (generate_graph test_graph_data)
     = [("aws_vpc.main", "aws_subnet.main")]
  /\ nx.nodes (generate_graph dangling_data) = ["aws_subnet.main"]
  /\ nx.edges (generate_graph dangling_data) = [].
Proof. repeat split. Qed.

(** ** Claims on parsing *)

(** C3, as the specification states it, fails on a resource: the key of
    the VPC of the test configuration is [aws_vpc.main], which is not its
    type and name behind a kind prefix, whatever the prefix. *)
Lemma resource_key_has_no_kind_prefix :
  exists data,
    parse_terraform "/tmp/tf" (test_fs "aws_vpc.main.id") = inr data
    /\ Dict.keys (resources data) = ["aws_vpc.main"; "aws_subnet.main"]
    /\ option_map (fun info => (Res.type info, Res.name info))
         (Dict.get (resources data) "aws_vpc.main") = Some ("aws_vpc", "main")
    /\ forall kind_prefix : string,
         "aws_vpc.main" <> kind_prefix +:+ "." +:+ "aws_vpc" +:+ "." +:+ "main".
Proof.
  eexists. split; [vm_compute; reflexivity|].
  split; [reflexivity|]. split; [reflexivity|].
  intros kind_prefix H. apply (f_equal String.length) in H.
  rewrite length_append in H. simpl in H. lia.
Qed.

(** C3, amended.  A resource is stored under [<type>.<name>], without a
    kind prefix, and a data source under [data.<type>.<name>]: storing a
    declaration puts the record with its type and name under that key, and
    in the result of a run every key of the two collections is built that
    way from the type and the name of its record. *)
Theorem records_keyed_by_type_and_name :
  (forall file ty nm cfg st,
      option_map (fun info => (Res.type info, Res.name info))
        (Dict.get (resources (state_of (store_resource file ty nm cfg st)))
           (ty +:+ "." +:+ nm)) = Some (ty, nm))
  /\ (forall file ty nm cfg st,
        option_map (fun info => (Res.type info, Res.name info))
          (Dict.get (data_sources (state_of (store_data file ty nm cfg st)))
             ("data." +:+ ty +:+ "." +:+ nm)) = Some (ty, nm))
  /\ (forall root fs data,
        parse_terraform root fs = inr data ->
        (forall key info, In (key, info) (resources data) ->
            key = Res.type info +:+ "." +:+ Res.name info)
        /\ (forall key info, In (key, info) (data_sources data) ->
              key = "data." +:+ Res.type info +:+ "." +:+ Res.name info)).
Proof.
  split; [|split].
  - intros file ty nm cfg st. simpl. rewrite get_set, String.eqb_refl. reflexivity.
  - intros file ty nm cfg st. simpl. rewrite get_set, String.eqb_refl. reflexivity.
  - intros root fs data H. exact (parse_terraform_keyed root fs data H).
Qed.

Lemma records_keyed_by_type_and_name_witness :
  exists data,
    parse_terraform "/tmp/tf" ami_fs = inr data
    /\ (forall key info, In (key, info) (resources data) ->
          key = Res.type info +:+ "." +:+ Res.name info)
    /\ (forall key info, In (key, info) (data_sources data) ->
          key = "data." +:+ Res.type info +:+ "." +:+ Res.name info)
    /\ Dict.keys (resources data) = ["aws_instance.web"]
    /\ Dict.keys (data_sources data) = ["data.aws_ami.ubuntu"].
Proof.
  eexists. split; [vm_compute; reflexivity|].
  split; [|split; [|split; reflexivity]].
  - exact (proj1 (proj2 (proj2 records_keyed_by_type_and_name)
                    "/tmp/tf" ami_fs _ ltac:(vm_compute; reflexivity))).
  - exact (proj2 (proj2 (proj2 records_keyed_by_type_and_name)
                    "/tmp/tf" ami_fs _ ltac:(vm_compute; reflexivity))).
Defined.

(** A module is stored under its bare name, so that a reference written
    [module.<name>] names no record and gives no edge. *)
Lemma module_stored_under_its_name (file nm : string) (cfg : value) (st : tf_data) :
  option_map Mod.name
    (Dict.get (modules (state_of (store_module file nm cfg st))) nm) = Some nm.
Proof. simpl. rewrite get_set, String.eqb_refl. reflexivity. Qed.

Example module_reference_gives_no_edge :
  exists data,
    parse_terraform "/tmp/tf" module_fs = inr data
    /\ Dict.keys (modules data) = ["vpc"]
    /\ option_map Res.dependencies
         (Dict.get (resources data) "aws_instance.web") = Some ["module.vpc"]
    /\ nx.nodes (generate_graph data) = ["aws_instance.web"; "vpc"]
    /\ nx.edges (generate_graph data) = [].
Proof. eexists. split; [vm_compute; reflexivity|]. repeat split. Qed.

(** C4. [parse_terraform] raises [FileNotFoundError] exactly when the root
    does not exist and [ValueError] exactly when the root exists and no
    path under it matches [*.tf]; in all other cases, and only then, it
    returns the record collections.  The two messages name the root as the
    path object writes it. *)
Theorem parse_terraform_errors (root : string) (fs : fs_view) :
  ((exists msg, parse_terraform root fs = inl (FileNotFoundError msg))
   <-> path_exists fs = false)
  /\ ((exists msg, parse_terraform root fs = inl (ValueError msg))
      <-> path_exists fs = true /\ rglob_tf fs = [])
  /\ ((exists data, parse_terraform root fs = inr data)
      <-> path_exists fs = true /\ rglob_tf fs <> [])
  /\ (path_exists fs = false ->
      parse_terraform root fs
      = inl (FileNotFoundError ("Path not found: " +:+ PyPath.str root)))
  /\ (path_exists fs = true -> rglob_tf fs = [] ->
      parse_terraform root fs
      = inl (ValueError ("No Terraform files found in " +:+ PyPath.str root))).
Proof.
  unfold parse_terraform.
  destruct (path_exists fs); simpl; [destruct (rglob_tf fs) as [|tf tfs]|].
  - split; [split; [intros (msg & [=])|discriminate]|].
    split; [split; [auto|eauto]|].
    split; [split; [intros (d & [=])|intros [_ Hne]; contradiction]|].
    split; [discriminate|reflexivity].
  - split; [split; [intros (msg & [=])|discriminate]|].
    split; [split; [intros (msg & [=])|intros [_ [=]]]|].
    split; [split; [intros _; split; [reflexivity|discriminate]|eauto]|].
    split; [discriminate|intros _ [=]].
  - split; [split; [reflexivity|eauto]|].
    split; [split; [intros (msg & [=])|intros [[=] _]]|].
    split; [split; [intros (d & [=])|intros [[=] _]]|].
    split; [reflexivity|discriminate].
Qed.

Lemma parse_terraform_errors_witness :
  parse_terraform "/nonexistent/path" {| path_exists := false; rglob_tf := [] |}
  = inl (FileNotFoundError "Path not found: /nonexistent/path")
  /\ parse_terraform "/tmp/empty/" {| path_exists := true; rglob_tf := [] |}
     = inl (ValueError "No Terraform files found in /tmp/empty").
Proof.
  split.
  - exact (proj1 (proj2 (proj2 (proj2
      (parse_terraform_errors "/nonexistent/path"
         {| path_exists := false; rglob_tf := [] |})))) eq_refl).
  - exact (proj2 (proj2 (proj2 (proj2
      (parse_terraform_errors "/tmp/empty/"
         {| path_exists := true; rglob_tf := [] |})))) eq_refl eq_refl).
Defined.

(** ** Claims on the export *)

(** C7. The three tables are total: each gives the row of [resource],
    [data] and [module], and the default row on every other string. *)
Theorem node_tables_total (node_type : string) :
  (_get_node_color "resource" = "#4CAF50"
   /\ _get_node_shape "resource" = "box"
   /\ _get_node_group "resource" = 1%Z)
  /\ (_get_node_color "data" = "#2196F3"
      /\ _get_node_shape "data" = "ellipse"
      /\ _get_node_group "data" = 2%Z)
  /\ (_get_node_color "module" = "#FF9800"
      /\ _get_node_shape "module" = "diamond"
      /\ _get_node_group "module" = 3%Z)
  /\ (node_type <> "resource" -> node_type <> "data" -> node_type <> "module" ->
      _get_node_color node_type = "#9E9E9E"
      /\ _get_node_shape node_type = "box"
      /\ _get_node_group node_type = 0%Z).
Proof.
  split; [repeat split|]. split; [repeat split|]. split; [repeat split|].
  intros Hr Hd Hm.
  assert (E1 : String.eqb "resource" node_type = false)
    by (apply String.eqb_neq; congruence).
  assert (E2 : String.eqb "data" node_type = false)
    by (apply String.eqb_neq; congruence).
  assert (E3 : String.eqb "module" node_type = false)
    by (apply String.eqb_neq; congruence).
  unfold _get_node_color, _get_node_shape, _get_node_group, Dict.get_default.
  cbn [Dict.get]. rewrite E1, E2, E3. repeat split.
Qed.

Lemma node_tables_total_witness :
  _get_node_color "unknown" = "#9E9E9E"
  /\ _get_node_shape "unknown" = "box"
  /\ _get_node_group "unknown" = 0%Z.
Proof.
  exact (proj2 (proj2 (proj2 (node_tables_total "unknown")))
           ltac:(discriminate) ltac:(discriminate) ltac:(discriminate)).
Defined.

Lemma field_nodes (graph : DiGraph) :
  elements_of (field (_graph_to_json graph) "nodes")
  = map node_object (nx.nodes_data graph).
Proof. reflexivity. Qed.

Lemma field_links (graph : DiGraph) :
  elements_of (field (_graph_to_json graph) "links")
  = map link_object (nx.edges graph).
Proof. reflexivity. Qed.

(** C6. The exported document has one node object for each node of the
    graph and one link object for each edge, in the same order; every link
    has the value 1; the node object of a node has its name as [id], its
    ['type'] attribute as [type] and the group of that type as [group].  In
    an assembled graph every node has the ['type'] attribute, one of the
    three kinds. *)
Theorem json_export_matches_graph :
  (forall graph : DiGraph,
      length (elements_of (field (_graph_to_json graph) "nodes"))
      = length (nx.nodes graph)
      /\ length (elements_of (field (_graph_to_json graph) "links"))
         = length (nx.edges graph)
      /\ (forall link,
            In link (elements_of (field (_graph_to_json graph) "links")) ->
            field link "value" = Some (JInt 1))
      /\ (forall i edge,
            nth_error (nx.edges graph) i = Some edge ->
            exists link,
              nth_error (elements_of (field (_graph_to_json graph) "links")) i
              = Some link
              /\ field link "source" = Some (JStr (fst edge))
              /\ field link "target" = Some (JStr (snd edge)))
      /\ (forall i node a,
            nth_error (nx.nodes_data graph) i = Some (node, a) ->
            exists obj,
              nth_error (elements_of (field (_graph_to_json graph) "nodes")) i
              = Some obj
              /\ field obj "id" = Some (JStr node)
              /\ field obj "type"
                 = Some (JStr (Dict.get_default a "type" "resource"))
              /\ field obj "group"
                 = Some (JInt (_get_node_group
                                 (Dict.get_default a "type" "resource")))))
  /\ (forall (data : tf_data) i node a,
        nth_error (nx.nodes_data (generate_graph data)) i = Some (node, a) ->
        exists obj t,
          nth_error
            (elements_of (field (_graph_to_json (generate_graph data)) "nodes")) i
          = Some obj
          /\ Dict.get a "type" = Some t /\ In t node_kinds
          /\ field obj "id" = Some (JStr node)
          /\ field obj "type" = Some (JStr t)
          /\ field obj "group" = Some (JInt (_get_node_group t))).
Proof.
  split.
  - intros graph. rewrite field_nodes, field_links.
    split; [unfold nx.nodes, nx.nodes_data, Dict.keys; rewrite !length_map;
            reflexivity|].
    split; [apply length_map|].
    split; [|split].
    + intros link H. apply in_map_iff in H. destruct H as (edge & <- & _).
      reflexivity.
    + intros i edge H. exists (link_object edge).
      split; [apply map_nth_error; exact H|]. split; reflexivity.
    + intros i node a H. exists (node_object (node, a)).
      split; [apply map_nth_error; exact H|]. repeat split.
  - intros data i node a H. rewrite field_nodes.
    destruct (generate_graph_spec data) as (_ & _ & _ & Htyped).
    rewrite List.Forall_forall in Htyped.
    destruct (Htyped _ (nth_error_In _ _ H)) as (t & Ht & Hkind).
    simpl in Ht.
    exists (node_object (node, a)), t.
    split; [apply map_nth_error; exact H|].
    split; [exact Ht|]. split; [exact Hkind|].
    unfold node_object, field, Dict.get_default. simpl. rewrite Ht.
    repeat split.
Qed.

Lemma json_export_matches_graph_witness :
  exists data,
    parse_terraform "/tmp/tf" ami_fs = inr data
    /\ exists obj t,
         nth_error
           (elements_of (field (_graph_to_json (generate_graph data)) "nodes")) 1
         = Some obj
         /\ Dict.get [("type", "data"); ("resource_type", "aws_ami");
                      ("name", "ubuntu"); ("file", "main.tf")] "type" = Some t
         /\ In t node_kinds
         /\ field obj "id" = Some (JStr "data.aws_ami.ubuntu")
         /\ field obj "type" = Some (JStr t)
         /\ field obj "group" = Some (JInt (_get_node_group t)).
Proof.
  eexists. split; [vm_compute; reflexivity|].
  apply (proj2 json_export_matches_graph _ 1 "data.aws_ami.ubuntu").
  vm_compute. reflexivity.
Defined.

(** ** Further properties of the scanner *)

(** Case analysis on the mapping items of a body that is written out. *)
Ltac fields H :=
  repeat first
    [ apply has_field_dict_cons in H; destruct H as [[? H]|[H|H]]
    | apply has_field_list_cons in H; destruct H as [H|H]
    | solve [inversion H; subst; contradiction]
    | solve [exfalso; exact (has_field_leaf _ _ _ H)] ].

Lemma scan_string_nil (key s : string) :
  scan_string key s = [] <->
  key <> "source"
  /\ (PyStr.startswith_any s marker_prefixes = false
      \/ PyStr.startswith_any (PyStr.strip marker_chars s) ref_prefixes = false).
Proof.
  unfold scan_string.
  destruct (String.eqb_spec key "source") as [->|Hk].
  - split; [discriminate|]. intros [H _]. contradiction.
  - destruct (PyStr.startswith_any s marker_prefixes); cbv zeta.
    + destruct (PyStr.startswith_any (PyStr.strip marker_chars s) ref_prefixes).
      * split; [discriminate|]. intros [_ [H|H]]; discriminate.
      * split; auto.
    + split; auto.
Qed.

Lemma extract_refs_nil (config : value) :
  extract_refs config = [] <->
  forall key s, has_field config key s -> scan_string key s = [].
Proof.
  split.
  - intros H key s Hf. destruct (scan_string key s) as [|d l] eqn:E; [reflexivity|].
    assert (Hin : In d (extract_refs config)).
    { apply in_extract_refs. exists key, s. split; [exact Hf|].
      rewrite E. left. reflexivity. }
    rewrite H in Hin. contradiction.
  - intros H. destruct (extract_refs config) as [|d l] eqn:E; [reflexivity|].
    assert (Hin : In d (extract_refs config)) by (rewrite E; left; reflexivity).
    apply in_extract_refs in Hin. destruct Hin as (key & s & Hf & Hd).
    rewrite (H key s Hf) in Hd. contradiction.
Qed.

Lemma extract_dependencies_nil (config : value) :
  _extract_dependencies config = [] <-> extract_refs config = [].
Proof.
  split.
  - intros H. destruct (extract_refs config) as [|d l] eqn:E; [reflexivity|].
    assert (Hin : In d (_extract_dependencies config)).
    { apply in_extract_dependencies. rewrite E. left. reflexivity. }
    rewrite H in Hin. contradiction.
  - intros H. unfold _extract_dependencies. rewrite H. apply elements_empty.
Qed.

(** X1. The dependency list of a body is empty exactly when none of its
    mapping items, at any depth, is a [source] field holding a string or a
    string that starts with the marker, [data.] or [module.] and whose
    stripped value starts with [data.] or [module.]. *)
Theorem no_reference_no_dependency (config : value) :
  _extract_dependencies config = [] <->
  forall key s,
    has_field config key s ->
    key <> "source"
    /\ (PyStr.startswith_any s marker_prefixes = false
        \/ PyStr.startswith_any (PyStr.strip marker_chars s) ref_prefixes = false).
Proof.
  rewrite extract_dependencies_nil, extract_refs_nil.
  split; intros H key s Hf; apply scan_string_nil, H, Hf.
Qed.

Lemma no_reference_no_dependency_witness :
  _extract_dependencies vpc_config = []
  /\ _extract_dependencies (subnet_config "${aws_vpc.main.id}") = [].
Proof.
  split.
  - apply (proj2 (no_reference_no_dependency vpc_config)).
    intros key s H. unfold vpc_config in H. fields H;
      match goal with E : _ = VStr _ |- _ => injection E as <- end; subst;
      (split; [discriminate|left; reflexivity]).
  - apply (proj2 (no_reference_no_dependency (subnet_config "${aws_vpc.main.id}"))).
    intros key s H. unfold subnet_config in H. fields H;
      match goal with E : _ = VStr _ |- _ => injection E as <- end; subst;
      (split; [discriminate|first [left; reflexivity|right; reflexivity]]).
Defined.

(** X2. [_extract_dependencies] returns each appended string once: the
    result has no duplicates, the same members as the appended strings,
    and is never longer than their list. *)
Theorem dependencies_deduplicated (config : value) :
  List.NoDup (_extract_dependencies config)
  /\ (forall d, In d (_extract_dependencies config) <-> In d (extract_refs config))
  /\ length (_extract_dependencies config) <= length (extract_refs config).
Proof.
  split; [apply NoDup_extract_dependencies|].
  split; [intros d; apply in_extract_dependencies|].
  apply List.NoDup_incl_length; [apply NoDup_extract_dependencies|].
  intros d. apply in_extract_dependencies.
Qed.

(** ** Further properties of [parse_terraform] *)

Lemma parse_terraform_run (root : string) (fs : fs_view) :
  path_exists fs = true -> rglob_tf fs <> [] ->
  parse_terraform root fs = inr (fold_left parse_file (rglob_tf fs) (no_records (PyPath.str root))).
Proof.
  intros He Hl. unfold parse_terraform. rewrite He. simpl.
  destruct (rglob_tf fs); [contradiction|reflexivity].
Qed.

Lemma parse_terraform_result (root : string) (fs : fs_view) (data : tf_data) :
  parse_terraform root fs = inr data ->
  data = fold_left parse_file (rglob_tf fs) (no_records (PyPath.str root)).
Proof.
  unfold parse_terraform. destruct (negb (path_exists fs)); [discriminate|].
  destruct (rglob_tf fs); [discriminate|]. intros [= <-]. reflexivity.
Qed.

Lemma fold_parse_file_loadable (l : list tf_file) (st : tf_data) :
  fold_left parse_file (List.filter loadable l) st = fold_left parse_file l st.
Proof.
  revert st. induction l as [|tf l IH]; intros st; [reflexivity|].
  simpl. destruct (loadable tf) eqn:L; simpl; [apply IH|].
  assert (Hskip : parse_file st tf = st).
  { unfold parse_file. unfold loadable in L.
    destruct (loads tf); [discriminate|reflexivity]. }
  rewrite Hskip. apply IH.
Qed.

(** X3. A file that cannot be read or parsed is skipped: the result is the
    one of the run over the files that load.  When the root exists and has
    matching paths of which none loads, the result is not an error but the
    three empty collections. *)
Theorem unreadable_files_are_skipped (root : string) (fs : fs_view) :
  path_exists fs = true -> rglob_tf fs <> [] ->
  parse_terraform root fs
  = inr (fold_left parse_file (List.filter loadable (rglob_tf fs)) (no_records (PyPath.str root)))
  /\ (forallb (fun tf => negb (loadable tf)) (rglob_tf fs) = true ->
      parse_terraform root fs = inr (no_records (PyPath.str root))).
Proof.
  intros He Hl. rewrite fold_parse_file_loadable.
  split; [apply parse_terraform_run; assumption|].
  intros Hnone. rewrite (parse_terraform_run root fs He Hl).
  rewrite <- fold_parse_file_loadable. f_equal.
  clear Hl. induction (rglob_tf fs) as [|tf l IH]; [reflexivity|].
  simpl in Hnone. apply andb_prop in Hnone. destruct Hnone as [Htf Hrest].
  simpl. destruct (loadable tf); [discriminate|]. exact (IH Hrest).
Qed.

Lemma unreadable_files_are_skipped_witness :
  parse_terraform "/tmp/tf"
    {| path_exists := true;
       rglob_tf := [{| relative_to := "broken.tf"; loads := None |}; ami_tf] |}
  = parse_terraform "/tmp/tf" ami_fs
  /\ parse_terraform "/tmp/tf"
       {| path_exists := true;
          rglob_tf := [{| relative_to := "broken.tf"; loads := None |}] |}
     = inr (no_records "/tmp/tf").
Proof.
  split.
  - exact (proj1 (unreadable_files_are_skipped "/tmp/tf"
             {| path_exists := true;
                rglob_tf := [{| relative_to := "broken.tf"; loads := None |};
                             ami_tf] |}
             eq_refl ltac:(discriminate))).
  - exact (proj2 (unreadable_files_are_skipped "/tmp/tf"
             {| path_exists := true;
                rglob_tf := [{| relative_to := "broken.tf"; loads := None |}] |}
             eq_refl ltac:(discriminate)) eq_refl).
Defined.

Lemma fold_parse_file_path (l : list tf_file) (p : string) :
  path (fold_left parse_file l (no_records p)) = p.
Proof.
  apply (fold_parse_file_keeps (fun st' => path st' = p)); auto.
Qed.

(** X5. Reading further files never removes a record: a key of a
    collection stays a key of it, and the path stays the same. *)
Theorem parsing_never_removes_a_record (l : list tf_file) (st : tf_data) :
  (forall key, In key (Dict.keys (resources st)) ->
               In key (Dict.keys (resources (fold_left parse_file l st))))
  /\ (forall key, In key (Dict.keys (data_sources st)) ->
                  In key (Dict.keys (data_sources (fold_left parse_file l st))))
  /\ (forall key, In key (Dict.keys (modules st)) ->
                  In key (Dict.keys (modules (fold_left parse_file l st))))
  /\ path (fold_left parse_file l st) = path st.
Proof.
  split; [|split; [|split]].
  - intros key.
    apply (fold_parse_file_keeps (fun st' => In key (Dict.keys (resources st')))).
    + intros file ty nm cfg st' H. simpl. apply in_keys_set. right. exact H.
    + intros file ty nm cfg st' H. exact H.
    + intros file nm cfg st' H. exact H.
  - intros key.
    apply (fold_parse_file_keeps (fun st' => In key (Dict.keys (data_sources st')))).
    + intros file ty nm cfg st' H. exact H.
    + intros file ty nm cfg st' H. simpl. apply in_keys_set. right. exact H.
    + intros file nm cfg st' H. exact H.
  - intros key.
    apply (fold_parse_file_keeps (fun st' => In key (Dict.keys (modules st')))).
    + intros file ty nm cfg st' H. exact H.
    + intros file ty nm cfg st' H. exact H.
    + intros file nm cfg st' H. simpl. apply in_keys_set. right. exact H.
  - apply (fold_parse_file_keeps (fun st' => path st' = path st)); auto.
Qed.

Lemma parsing_never_removes_a_record_witness :
  In "aws_subnet.main"
    (Dict.keys (resources (fold_left parse_file [ami_tf; module_tf] dangling_data))).
Proof.
  apply (proj1 (parsing_never_removes_a_record [ami_tf; module_tf] dangling_data)).
  left. reflexivity.
Defined.

(** ** What a run stores for the files that load *)

Section ParseInvariantOn.

Variable ok : string -> Prop.
Variable P : tf_data -> Prop.

Hypothesis P_resource : forall file ty nm cfg st,
    ok file -> P st -> P (state_of (store_resource file ty nm cfg st)).
Hypothesis P_data : forall file ty nm cfg st,
    ok file -> P st -> P (state_of (store_data file ty nm cfg st)).
Hypothesis P_module : forall file nm cfg st,
    ok file -> P st -> P (state_of (store_module file nm cfg st)).

Lemma extract_records_keeps_on (file : string) (parsed : document)
    (st : tf_data) :
  ok file -> P st -> P (state_of (extract_records file parsed st)).
Proof.
  intros Hok Hst. unfold extract_records.
  apply and_then_keeps; [apply and_then_keeps|].
  - apply if_present_keeps; [|exact Hst].
    intros ty instances st' Hst'. apply for_each_keeps; [|exact Hst'].
    intros nm cfg st''. apply P_resource. exact Hok.
  - intros st' Hst'. apply if_present_keeps; [|exact Hst'].
    intros ty instances st'' Hst''. apply for_each_keeps; [|exact Hst''].
    intros nm cfg st'''. apply P_data. exact Hok.
  - intros st' Hst'. apply if_present_keeps; [|exact Hst'].
    intros nm cfg st''. apply P_module. exact Hok.
Qed.

Lemma fold_parse_file_keeps_on (l : list tf_file) (st : tf_data) :
  (forall tf, In tf l -> loadable tf = true -> ok (relative_to tf)) ->
  P st -> P (fold_left parse_file l st).
Proof.
  revert st. induction l as [|tf l IH]; intros st Hl Hst; simpl; [exact Hst|].
  apply IH; [intros tf' H; apply Hl; right; exact H|].
  unfold parse_file. pose proof (Hl tf (or_introl eq_refl)) as Htf.
  unfold loadable in Htf. destruct (loads tf) as [doc|]; [|exact Hst].
  apply extract_records_keeps_on; [apply Htf; reflexivity|exact Hst].
Qed.

End ParseInvariantOn.

(** X6. In the result of a run the path is the string of the path object
    made from the root that was given, [str(Path(root))], every
    record's dependency list is the scan of the configuration body stored
    with it, hence without duplicates, and every record's file is the
    relative path of a matched file that loads. *)
Theorem parsed_records_are_consistent (root : string) (fs : fs_view)
    (data : tf_data) :
  parse_terraform root fs = inr data ->
  path data = PyPath.str root
  /\ (forall name config deps,
        In (name, config, deps) (record_bodies data) ->
        deps = _extract_dependencies config /\ List.NoDup deps)
  /\ (forall key info,
        In (key, info) (resources data) \/ In (key, info) (data_sources data) ->
        exists tf, In tf (rglob_tf fs) /\ loadable tf = true
                   /\ Res.file info = relative_to tf)
  /\ (forall key info,
        In (key, info) (modules data) ->
        exists tf, In tf (rglob_tf fs) /\ loadable tf = true
                   /\ Mod.file info = relative_to tf).
Proof.
  intros H. pose proof (parse_terraform_scanned root fs data H) as Hscan.
  apply parse_terraform_result in H. subst data.
  split; [apply (fold_parse_file_path (rglob_tf fs))|].
  split.
  { intros name config deps Hin. rewrite (Hscan name config deps Hin).
    split; [reflexivity|apply NoDup_extract_dependencies]. }
  set (ok := fun file => exists tf, In tf (rglob_tf fs) /\ loadable tf = true
                                    /\ file = relative_to tf).
  assert (Hfiles :
    (forall key info,
        In (key, info) (resources (fold_left parse_file (rglob_tf fs) (no_records (PyPath.str root))))
        \/ In (key, info)
             (data_sources (fold_left parse_file (rglob_tf fs) (no_records (PyPath.str root)))) ->
        ok (Res.file info))
    /\ (forall key info,
          In (key, info)
             (modules (fold_left parse_file (rglob_tf fs) (no_records (PyPath.str root)))) ->
          ok (Mod.file info))).
  { apply (fold_parse_file_keeps_on ok
             (fun st => (forall key info,
                            In (key, info) (resources st)
                            \/ In (key, info) (data_sources st) ->
                            ok (Res.file info))
                        /\ (forall key info, In (key, info) (modules st) ->
                                             ok (Mod.file info)))).
    - intros file ty nm cfg st Hok [Hr Hm]. split; [|exact Hm]. simpl.
      intros key info [Hin|Hin]; [|eapply Hr; right; exact Hin].
      apply in_set in Hin. destruct Hin as [[_ ->]|Hin]; [exact Hok|].
      eapply Hr. left. exact Hin.
    - intros file ty nm cfg st Hok [Hr Hm]. split; [|exact Hm]. simpl.
      intros key info [Hin|Hin]; [eapply Hr; left; exact Hin|].
      apply in_set in Hin. destruct Hin as [[_ ->]|Hin]; [exact Hok|].
      eapply Hr. right. exact Hin.
    - intros file nm cfg st Hok [Hr Hm]. split; [exact Hr|]. simpl.
      intros key info Hin.
      apply in_set in Hin. destruct Hin as [[_ ->]|Hin]; [exact Hok|].
      eapply Hm. exact Hin.
    - intros tf Hin Hload. exists tf. auto.
    - split; [intros key info [[]|[]]|intros key info []]. }
  exact Hfiles.
Qed.

Lemma parsed_records_are_consistent_witness :
  exists data,
    parse_terraform "/tmp/tf/" ami_fs = inr data
    /\ path data = "/tmp/tf"
    /\ record_bodies data
       = [("aws_instance.web",
           VDict [("ami", VStr "${data.aws_ami.ubuntu}");
                  ("instance_type", VStr "t3.micro")],
           ["data.aws_ami.ubuntu"]);
          ("data.aws_ami.ubuntu",
           VDict [("most_recent", VScalar);
                  ("owners", VList [VStr "099720109477"])],
           [])].
Proof.
  eexists. split; [vm_compute; reflexivity|].
  split; [|reflexivity].
  exact (proj1 (parsed_records_are_consistent "/tmp/tf/" ami_fs _
                  ltac:(vm_compute; reflexivity))).
Defined.

(** ** Declarations that are reached, and declarations that are not *)

Lemma for_each_normal {A : Type} (l : list (entry A))
    (body : string -> A -> tf_data -> outcome) (st : tf_data) :
  well_formed l = true ->
  (forall label content st',
      In (Pair label content) l -> exists st'', body label content st' = Normal st'') ->
  exists st', for_each l body st = Normal st'.
Proof.
  revert st. induction l as [|[label content|] l IH]; intros st Hwf Hbody; simpl.
  - exists st. reflexivity.
  - destruct (Hbody label content st (or_introl eq_refl)) as [st1 ->]. simpl.
    apply IH; [exact Hwf|]. intros l' c' st' H. apply Hbody. right. exact H.
  - discriminate Hwf.
Qed.

Lemma typed_loop_normal (store : string -> string -> string -> value -> tf_data -> outcome)
    (file : string) (l : list (entry (list (entry value)))) (st : tf_data) :
  (forall ty nm cfg st', exists st'', store file ty nm cfg st' = Normal st'') ->
  well_formed_typed l = true ->
  exists st',
    for_each l (fun ty instances => for_each instances (store file ty)) st
    = Normal st'.
Proof.
  intros Hstore Hwf. unfold well_formed_typed in Hwf.
  apply for_each_normal.
  - unfold well_formed. rewrite forallb_forall in *. intros e He.
    specialize (Hwf e He). destruct e; [reflexivity|discriminate].
  - intros ty instances st' Hin. rewrite forallb_forall in Hwf.
    apply for_each_normal; [exact (Hwf _ Hin)|].
    intros nm cfg st'' _. apply Hstore.
Qed.

Section Reached.

(** [Q] holds once a record is stored and is kept by every later store. *)
Variable Q : tf_data -> Prop.

Hypothesis Q_resource : forall file ty nm cfg st,
    Q st -> Q (state_of (store_resource file ty nm cfg st)).
Hypothesis Q_data : forall file ty nm cfg st,
    Q st -> Q (state_of (store_data file ty nm cfg st)).
Hypothesis Q_module : forall file nm cfg st,
    Q st -> Q (state_of (store_module file nm cfg st)).

Lemma for_each_reaches {A : Type} (l : list (entry A))
    (body : string -> A -> tf_data -> outcome)
    (label : string) (content : A) (st : tf_data) :
  well_formed l = true ->
  (forall l' c' st', In (Pair l' c') l -> exists st'', body l' c' st' = Normal st'') ->
  (forall l' c' st', Q st' -> Q (state_of (body l' c' st'))) ->
  In (Pair label content) l ->
  (forall st', Q (state_of (body label content st'))) ->
  Q (state_of (for_each l body st)).
Proof.
  intros Hwf Hnormal Hkeep Hin Hset. revert st Hwf Hnormal Hin.
  induction l as [|[l0 c0|] l IH]; intros st Hwf Hnormal Hin; simpl.
  - contradiction.
  - destruct Hin as [[= -> ->]|Hin].
    + apply and_then_keeps; [apply Hset|].
      intros st' Hst'. apply for_each_keeps; assumption.
    + destruct (Hnormal l0 c0 st (or_introl eq_refl)) as [st1 ->]. simpl.
      apply IH; [exact Hwf| |exact Hin].
      intros l' c' st' H. apply Hnormal. right. exact H.
  - discriminate Hwf.
Qed.

Lemma typed_loop_reaches
    (store : string -> string -> string -> value -> tf_data -> outcome)
    (file : string) (l : list (entry (list (entry value))))
    (ty nm : string) (cfg : value) (st : tf_data) :
  (forall ty nm cfg st', exists st'', store file ty nm cfg st' = Normal st'') ->
  (forall ty nm cfg st', Q st' -> Q (state_of (store file ty nm cfg st'))) ->
  (forall st', Q (state_of (store file ty nm cfg st'))) ->
  well_formed_typed l = true ->
  In (ty, nm, cfg) (typed_declarations (Some l)) ->
  Q (state_of (for_each l (fun ty instances =>
                             for_each instances (store file ty)) st)).
Proof.
  intros Hstore Hkeep Hset Hwf Hin.
  simpl in Hin. apply in_flat_map in Hin.
  destruct Hin as ([ty' instances|] & Hl & Hin); [|contradiction].
  apply in_flat_map in Hin.
  destruct Hin as ([nm' cfg'|] & Hi & Hin); [|contradiction].
  destruct Hin as [[= -> -> ->]|[]].
  pose proof Hwf as Hwf'. unfold well_formed_typed in Hwf'.
  rewrite forallb_forall in Hwf'.
  apply (for_each_reaches l _ ty instances).
  - unfold well_formed. rewrite forallb_forall. intros e He.
    specialize (Hwf' e He). destruct e; [reflexivity|discriminate].
  - intros ty' instances' st' Hin'.
    apply for_each_normal; [exact (Hwf' _ Hin')|].
    intros nm' cfg' st'' _. apply Hstore.
  - intros ty' instances' st' Hst'. apply for_each_keeps; [|exact Hst'].
    intros nm' cfg' st''. apply Hkeep.
  - exact Hl.
  - intros st'. apply (for_each_reaches instances _ nm cfg).
    + exact (Hwf' _ Hl).
    + intros nm' cfg' st'' _. apply Hstore.
    + intros nm' cfg' st''. apply Hkeep.
    + exact Hi.
    + exact Hset.
Qed.

Lemma fold_parse_file_reaches (l : list tf_file) (tf : tf_file) (st : tf_data) :
  In tf l ->
  (forall st', Q (parse_file st' tf)) ->
  Q (fold_left parse_file l st).
Proof.
  intros Hin Hset. revert st. induction l as [|tf' l IH]; intros st; simpl.
  - contradiction.
  - destruct Hin as [->|Hin]; [|apply IH; exact Hin].
    apply fold_parse_file_keeps; [assumption..|apply Hset].
Qed.

End Reached.

Lemma store_resource_normal (file ty nm : string) (cfg : value) (st : tf_data) :
  exists st', store_resource file ty nm cfg st = Normal st'.
Proof. eexists. reflexivity. Qed.

Lemma store_data_normal (file ty nm : string) (cfg : value) (st : tf_data) :
  exists st', store_data file ty nm cfg st = Normal st'.
Proof. eexists. reflexivity. Qed.

Lemma store_module_normal (file nm : string) (cfg : value) (st : tf_data) :
  exists st', store_module file nm cfg st = Normal st'.
Proof. eexists. reflexivity. Qed.

Lemma block_loop_normal (store : string -> string -> string -> value -> tf_data -> outcome)
    (file : string) (block : option (list (entry (list (entry value)))))
    (st : tf_data) :
  (forall ty nm cfg st', exists st'', store file ty nm cfg st' = Normal st'') ->
  block_ok well_formed_typed block = true ->
  exists st',
    if_present block (fun ty instances => for_each instances (store file ty)) st
    = Normal st'.
Proof.
  intros Hstore Hok. destruct block as [l|]; simpl.
  - apply typed_loop_normal; assumption.
  - exists st. reflexivity.
Qed.

(** ** The assignments of a run, and which of them stays *)

Lemma for_each_ended {A : Type} (l : list (entry A))
    (body : string -> A -> tf_data -> outcome) (st : tf_data) :
  (forall label content st', exists st'', body label content st' = Normal st'') ->
  for_each l body st
  = ended (well_formed l)
      (fold_left (fun s d => state_of (body (fst d) (snd d) s)) (reached l) st).
Proof.
  intros Hbody. revert st.
  induction l as [|[label content|] l IH]; intros st; simpl; [reflexivity| |reflexivity].
  destruct (Hbody label content st) as [st1 E]. rewrite E. simpl. apply IH.
Qed.

Lemma fold_left_over_map {A B C : Type} (f : A -> C -> A) (g : B -> C)
    (l : list B) (a : A) :
  fold_left f (map g l) a = fold_left (fun acc x => f acc (g x)) l a.
Proof.
  revert a. induction l as [|x l IH]; intros a; simpl; [reflexivity|apply IH].
Qed.

Lemma typed_loop_ended
    (store : string -> string -> string -> value -> tf_data -> outcome)
    (file : string) (l : list (entry (list (entry value)))) (st : tf_data) :
  (forall ty nm cfg st', exists st'', store file ty nm cfg st' = Normal st'') ->
  for_each l (fun ty instances => for_each instances (store file ty)) st
  = ended (well_formed_typed l)
      (fold_left (fun s d => state_of (store file (fst (fst d)) (snd (fst d))
                                         (snd d) s))
         (reached_typed l) st).
Proof.
  intros Hstore. revert st.
  induction l as [|[ty instances|] l IH]; intros st; simpl; [reflexivity| |reflexivity].
  rewrite (for_each_ended instances (store file ty) st)
    by (intros nm cfg st'; apply Hstore).
  rewrite fold_left_app, fold_left_over_map. simpl.
  destruct (well_formed instances); simpl; [apply IH|reflexivity].
Qed.

Lemma block_loop_ended
    (store : string -> string -> string -> value -> tf_data -> outcome)
    (file : string) (block : option (list (entry (list (entry value)))))
    (st : tf_data) :
  (forall ty nm cfg st', exists st'', store file ty nm cfg st' = Normal st'') ->
  if_present block (fun ty instances => for_each instances (store file ty)) st
  = ended (block_ok well_formed_typed block)
      (fold_left (fun s d => state_of (store file (fst (fst d)) (snd (fst d))
                                         (snd d) s))
         (reached_block block) st).
Proof.
  intros Hstore. destruct block as [l|]; simpl; [|reflexivity].
  apply typed_loop_ended. exact Hstore.
Qed.

Lemma update_app {V : Type} (d e1 e2 : Dict.t V) :
  Dict.update d (e1 ++ e2) = Dict.update (Dict.update d e1) e2.
Proof. unfold Dict.update. apply fold_left_app. Qed.

Lemma fold_store_resource (file : string) (decls : list (string * string * value))
    (st : tf_data) :
  let st' := fold_left (fun s d => state_of (store_resource file (fst (fst d))
                                               (snd (fst d)) (snd d) s))
               decls st in
  resources st' = Dict.update (resources st) (map (resource_item file) decls)
  /\ data_sources st' = data_sources st
  /\ modules st' = modules st.
Proof.
  revert st. induction decls as [|[[ty nm] cfg] decls IH]; intros st; simpl.
  - auto.
  - destruct (IH (state_of (store_resource file ty nm cfg st))) as (Hr & Hd & Hm).
    simpl in Hr, Hd, Hm. auto.
Qed.

Lemma fold_store_data (file : string) (decls : list (string * string * value))
    (st : tf_data) :
  let st' := fold_left (fun s d => state_of (store_data file (fst (fst d))
                                               (snd (fst d)) (snd d) s))
               decls st in
  resources st' = resources st
  /\ data_sources st' = Dict.update (data_sources st) (map (data_item file) decls)
  /\ modules st' = modules st.
Proof.
  revert st. induction decls as [|[[ty nm] cfg] decls IH]; intros st; simpl.
  - auto.
  - destruct (IH (state_of (store_data file ty nm cfg st))) as (Hr & Hd & Hm).
    simpl in Hr, Hd, Hm. auto.
Qed.

Lemma fold_store_module (file : string) (decls : list (string * value))
    (st : tf_data) :
  let st' := fold_left (fun s d => state_of (store_module file (fst d) (snd d) s))
               decls st in
  resources st' = resources st
  /\ data_sources st' = data_sources st
  /\ modules st' = Dict.update (modules st) (map (module_item file) decls).
Proof.
  revert st. induction decls as [|[nm cfg] decls IH]; intros st; simpl.
  - auto.
  - destruct (IH (state_of (store_module file nm cfg st))) as (Hr & Hd & Hm).
    simpl in Hr, Hd, Hm. auto.
Qed.

(** The three dictionaries after one file. *)
Lemma parse_file_writes (st : tf_data) (tf : tf_file) :
  resources (parse_file st tf) = Dict.update (resources st) (resource_writes tf)
  /\ data_sources (parse_file st tf)
     = Dict.update (data_sources st) (data_writes tf)
  /\ modules (parse_file st tf) = Dict.update (modules st) (module_writes tf).
Proof.
  unfold parse_file, resource_writes, data_writes, module_writes.
  destruct (loads tf) as [doc|]; [|auto].
  unfold extract_records.
  rewrite (block_loop_ended store_resource) by (intros; apply store_resource_normal).
  destruct (fold_store_resource (relative_to tf) (reached_block (doc_resource doc)) st)
    as (Rr & Rd & Rm).
  cbv zeta in Rr, Rd, Rm.
  destruct (block_ok well_formed_typed (doc_resource doc)); cbn [ended and_then state_of].
  2:{ rewrite Rr, Rd, Rm. auto. }
  rewrite (block_loop_ended store_data) by (intros; apply store_data_normal).
  match goal with
  | |- context [fold_left ?f (reached_block (doc_data doc)) ?s] =>
      destruct (fold_store_data (relative_to tf) (reached_block (doc_data doc)) s)
        as (Dr & Dd & Dm)
  end.
  cbv zeta in Dr, Dd, Dm.
  destruct (block_ok well_formed_typed (doc_data doc)); cbn [ended and_then state_of].
  2:{ rewrite Dr, Dd, Dm, Rr, Rd, Rm. auto. }
  destruct (doc_module doc) as [l|]; cbn [if_present map state_of].
  2:{ rewrite Dr, Dd, Dm, Rr, Rd, Rm. auto. }
  rewrite (for_each_ended l (store_module (relative_to tf)))
    by (intros; apply store_module_normal).
  match goal with
  | |- context [fold_left ?f (reached l) ?s] =>
      destruct (fold_store_module (relative_to tf) (reached l) s)
        as (Mr & Md & Mm)
  end.
  cbv zeta in Mr, Md, Mm.
  destruct (well_formed l); cbn [ended state_of]; rewrite Mr, Md, Mm, Dr, Dd, Dm, Rr, Rd, Rm; auto.
Qed.

Lemma fold_parse_file_writes (l : list tf_file) (st : tf_data) :
  resources (fold_left parse_file l st)
  = Dict.update (resources st) (flat_map resource_writes l)
  /\ data_sources (fold_left parse_file l st)
     = Dict.update (data_sources st) (flat_map data_writes l)
  /\ modules (fold_left parse_file l st)
     = Dict.update (modules st) (flat_map module_writes l).
Proof.
  revert st. induction l as [|tf l IH]; intros st; simpl; [auto|].
  destruct (IH (parse_file st tf)) as (Hr & Hd & Hm).
  destruct (parse_file_writes st tf) as (Fr & Fd & Fm).
  rewrite Hr, Hd, Hm, Fr, Fd, Fm, !update_app. auto.
Qed.

Lemma get_update_last {V : Type} (d before after : Dict.t V) (k : string) (v : V) :
  ~ In k (Dict.keys after) ->
  Dict.get (Dict.update d (before ++ (k, v) :: after)) k = Some v.
Proof.
  intros H. rewrite update_app. apply get_update_first. exact H.
Qed.

Lemma NoDup_keys_update {V : Type} (d e : Dict.t V) :
  List.NoDup (Dict.keys d) -> List.NoDup (Dict.keys (Dict.update d e)).
Proof.
  unfold Dict.update. revert d.
  induction e as [|[k v] e IH]; intros d H; simpl; [exact H|].
  apply IH, NoDup_keys_set, H.
Qed.

(** X4. The last assignment wins.  Each dictionary of the result is the
    empty dictionary after the assignments that the loops make, file after
    file, in the order of the run; when an assignment to a key has no
    later assignment to the same key, the record it stores is the one of
    the result, whatever was assigned to the key before; and no key is
    held twice. *)
Theorem last_declaration_wins (root : string) (fs : fs_view) (data : tf_data) :
  parse_terraform root fs = inr data ->
  (resources data = Dict.update [] (flat_map resource_writes (rglob_tf fs))
   /\ data_sources data = Dict.update [] (flat_map data_writes (rglob_tf fs))
   /\ modules data = Dict.update [] (flat_map module_writes (rglob_tf fs)))
  /\ (forall before key info after,
        flat_map resource_writes (rglob_tf fs) = before ++ (key, info) :: after ->
        ~ In key (Dict.keys after) ->
        Dict.get (resources data) key = Some info)
  /\ (forall before key info after,
        flat_map data_writes (rglob_tf fs) = before ++ (key, info) :: after ->
        ~ In key (Dict.keys after) ->
        Dict.get (data_sources data) key = Some info)
  /\ (forall before key info after,
        flat_map module_writes (rglob_tf fs) = before ++ (key, info) :: after ->
        ~ In key (Dict.keys after) ->
        Dict.get (modules data) key = Some info)
  /\ List.NoDup (Dict.keys (resources data))
  /\ List.NoDup (Dict.keys (data_sources data))
  /\ List.NoDup (Dict.keys (modules data)).
Proof.
  intros H. apply parse_terraform_result in H. subst data.
  destruct (fold_parse_file_writes (rglob_tf fs) (no_records (PyPath.str root)))
    as (Hr & Hd & Hm).
  simpl in Hr, Hd, Hm. rewrite Hr, Hd, Hm.
  split; [auto|].
  split; [intros before key info after -> Hk; apply get_update_last; exact Hk|].
  split; [intros before key info after -> Hk; apply get_update_last; exact Hk|].
  split; [intros before key info after -> Hk; apply get_update_last; exact Hk|].
  repeat split; apply NoDup_keys_update; constructor.
Qed.

Lemma last_declaration_wins_witness :
  exists data,
    parse_terraform "/tmp/tf"
      {| path_exists := true; rglob_tf := [ami_tf; override_tf] |} = inr data
    /\ Dict.keys (resources data) = ["aws_instance.web"]
    /\ Dict.get (resources data) "aws_instance.web"
       = Some {| Res.type := "aws_instance"; Res.name := "web";
                 Res.file := "override.tf";
                 Res.config := VDict [("instance_type", VStr "t3.large")];
                 Res.dependencies := [] |}.
Proof.
  eexists. split; [vm_compute; reflexivity|]. split; [reflexivity|].
  apply (proj1 (proj2 (last_declaration_wins "/tmp/tf"
                         {| path_exists := true;
                            rglob_tf := [ami_tf; override_tf] |} _
                         ltac:(vm_compute; reflexivity)))
           [resource_item "main.tf"
              ("aws_instance", "web",
               VDict [("ami", VStr "${data.aws_ami.ubuntu}");
                      ("instance_type", VStr "t3.micro")])]
           "aws_instance.web" _ []).
  - reflexivity.
  - intros [].
Defined.

Lemma resource_key_kept (key : string) :
  (forall file ty nm cfg st,
      In key (Dict.keys (resources st)) ->
      In key (Dict.keys (resources (state_of (store_resource file ty nm cfg st)))))
  /\ (forall file ty nm cfg st,
        In key (Dict.keys (resources st)) ->
        In key (Dict.keys (resources (state_of (store_data file ty nm cfg st)))))
  /\ (forall file nm cfg st,
        In key (Dict.keys (resources st)) ->
        In key (Dict.keys (resources (state_of (store_module file nm cfg st))))).
Proof.
  repeat split; intros; simpl; try assumption.
  apply in_keys_set. right. assumption.
Qed.

Lemma data_key_kept (key : string) :
  (forall file ty nm cfg st,
      In key (Dict.keys (data_sources st)) ->
      In key (Dict.keys (data_sources (state_of (store_resource file ty nm cfg st)))))
  /\ (forall file ty nm cfg st,
        In key (Dict.keys (data_sources st)) ->
        In key (Dict.keys (data_sources (state_of (store_data file ty nm cfg st)))))
  /\ (forall file nm cfg st,
        In key (Dict.keys (data_sources st)) ->
        In key (Dict.keys (data_sources (state_of (store_module file nm cfg st))))).
Proof.
  repeat split; intros; simpl; try assumption.
  apply in_keys_set. right. assumption.
Qed.

Lemma module_key_kept (key : string) :
  (forall file ty nm cfg st,
      In key (Dict.keys (modules st)) ->
      In key (Dict.keys (modules (state_of (store_resource file ty nm cfg st)))))
  /\ (forall file ty nm cfg st,
        In key (Dict.keys (modules st)) ->
        In key (Dict.keys (modules (state_of (store_data file ty nm cfg st)))))
  /\ (forall file nm cfg st,
        In key (Dict.keys (modules st)) ->
        In key (Dict.keys (modules (state_of (store_module file nm cfg st))))).
Proof.
  repeat split; intros; simpl; try assumption.
  apply in_keys_set. right. assumption.
Qed.

Lemma extract_records_stores_resource (file : string) (doc : document)
    (ty nm : string) (cfg : value) (st : tf_data) :
  block_ok well_formed_typed (doc_resource doc) = true ->
  In (ty, nm, cfg) (typed_declarations (doc_resource doc)) ->
  In (ty +:+ "." +:+ nm)
     (Dict.keys (resources (state_of (extract_records file doc st)))).
Proof.
  intros Hok Hin. destruct (resource_key_kept (ty +:+ "." +:+ nm)) as (Kr & Kd & Km).
  unfold extract_records.
  apply and_then_keeps; [apply and_then_keeps|].
  - destruct (doc_resource doc) as [l|]; [|contradiction].
    unfold if_present, block_ok in *.
    apply (typed_loop_reaches
             (fun st' => In (ty +:+ "." +:+ nm) (Dict.keys (resources st')))
             store_resource file l ty nm cfg);
      try assumption.
    + intros. apply store_resource_normal.
    + intros. apply Kr. assumption.
    + intros st'. simpl. apply in_keys_set. left. reflexivity.
  - intros st' Hst'. apply if_present_keeps; [|exact Hst'].
    intros ty' instances st'' Hst''. apply for_each_keeps; [|exact Hst''].
    intros nm' cfg' st'''. apply Kd.
  - intros st' Hst'. apply if_present_keeps; [|exact Hst'].
    intros nm' cfg' st''. apply Km.
Qed.

Lemma extract_records_stores_data (file : string) (doc : document)
    (ty nm : string) (cfg : value) (st : tf_data) :
  block_ok well_formed_typed (doc_resource doc) = true ->
  block_ok well_formed_typed (doc_data doc) = true ->
  In (ty, nm, cfg) (typed_declarations (doc_data doc)) ->
  In ("data." +:+ ty +:+ "." +:+ nm)
     (Dict.keys (data_sources (state_of (extract_records file doc st)))).
Proof.
  intros Hres Hok Hin.
  destruct (data_key_kept ("data." +:+ ty +:+ "." +:+ nm)) as (Kr & Kd & Km).
  unfold extract_records.
  destruct (block_loop_normal store_resource file (doc_resource doc) st
              ltac:(intros; apply store_resource_normal) Hres) as [st1 ->].
  apply and_then_keeps.
  - unfold and_then at 1. destruct (doc_data doc) as [l|]; [|contradiction].
    unfold if_present, block_ok in *.
    apply (typed_loop_reaches
             (fun st' => In ("data." +:+ ty +:+ "." +:+ nm)
                            (Dict.keys (data_sources st')))
             store_data file l ty nm cfg); try assumption.
    + intros. apply store_data_normal.
    + intros. apply Kd. assumption.
    + intros st'. simpl. apply in_keys_set. left. reflexivity.
  - intros st' Hst'. apply if_present_keeps; [|exact Hst'].
    intros nm' cfg' st''. apply Km.
Qed.

Lemma extract_records_stores_module (file : string) (doc : document)
    (nm : string) (cfg : value) (st : tf_data) :
  block_ok well_formed_typed (doc_resource doc) = true ->
  block_ok well_formed_typed (doc_data doc) = true ->
  block_ok well_formed (doc_module doc) = true ->
  In (nm, cfg) (module_declarations (doc_module doc)) ->
  In nm (Dict.keys (modules (state_of (extract_records file doc st)))).
Proof.
  intros Hres Hdata Hok Hin.
  destruct (module_key_kept nm) as (Kr & Kd & Km).
  unfold extract_records.
  destruct (block_loop_normal store_resource file (doc_resource doc) st
              ltac:(intros; apply store_resource_normal) Hres) as [st1 ->].
  unfold and_then at 2.
  destruct (block_loop_normal store_data file (doc_data doc) st1
              ltac:(intros; apply store_data_normal) Hdata) as [st2 ->].
  unfold and_then.
  destruct (doc_module doc) as [l|]; [|contradiction].
  unfold if_present, block_ok, module_declarations in *.
  apply in_flat_map in Hin. destruct Hin as ([nm' cfg'|] & Hl & Hin); [|contradiction].
  destruct Hin as [[= -> ->]|[]].
  apply (for_each_reaches (fun st' => In nm (Dict.keys (modules st')))
           l (store_module file) nm cfg); try assumption.
  - intros. apply store_module_normal.
  - intros. apply Km. assumption.
  - intros st'. simpl. apply in_keys_set. left. reflexivity.
Qed.

(** X7. Every declaration of a matched file that loads is in the result
    under its key, provided the entries of the file destructure up to its
    block: a resource under [<type>.<name>] when the resource block is well
    formed, a data source under [data.<type>.<name>] when the resource and
    data blocks are, a module under its name when all three are. *)
Theorem declarations_are_recorded (root : string) (fs : fs_view)
    (data : tf_data) (tf : tf_file) (doc : document) :
  parse_terraform root fs = inr data ->
  In tf (rglob_tf fs) ->
  loads tf = Some doc ->
  block_ok well_formed_typed (doc_resource doc) = true ->
  (forall ty nm cfg,
      In (ty, nm, cfg) (typed_declarations (doc_resource doc)) ->
      In (ty +:+ "." +:+ nm) (Dict.keys (resources data)))
  /\ (block_ok well_formed_typed (doc_data doc) = true ->
      (forall ty nm cfg,
          In (ty, nm, cfg) (typed_declarations (doc_data doc)) ->
          In ("data." +:+ ty +:+ "." +:+ nm) (Dict.keys (data_sources data)))
      /\ (block_ok well_formed (doc_module doc) = true ->
          forall nm cfg,
            In (nm, cfg) (module_declarations (doc_module doc)) ->
            In nm (Dict.keys (modules data)))).
Proof.
  intros Hrun Htf Hloads Hres. apply parse_terraform_result in Hrun. subst data.
  split; [|intros Hdata; split; [|intros Hmod]].
  - intros ty nm cfg Hin.
    destruct (resource_key_kept (ty +:+ "." +:+ nm)) as (Kr & Kd & Km).
    apply (fold_parse_file_reaches _ Kr Kd Km _ tf); [exact Htf|].
    intros st'. unfold parse_file. rewrite Hloads.
    apply (extract_records_stores_resource _ _ ty nm cfg); assumption.
  - intros ty nm cfg Hin.
    destruct (data_key_kept ("data." +:+ ty +:+ "." +:+ nm)) as (Kr & Kd & Km).
    apply (fold_parse_file_reaches _ Kr Kd Km _ tf); [exact Htf|].
    intros st'. unfold parse_file. rewrite Hloads.
    apply (extract_records_stores_data _ _ ty nm cfg); assumption.
  - intros nm cfg Hin.
    destruct (module_key_kept nm) as (Kr & Kd & Km).
    apply (fold_parse_file_reaches _ Kr Kd Km _ tf); [exact Htf|].
    intros st'. unfold parse_file. rewrite Hloads.
    apply (extract_records_stores_module _ _ nm cfg); assumption.
Qed.

Lemma declarations_are_recorded_witness :
  exists data,
    parse_terraform "/tmp/tf"
      {| path_exists := true; rglob_tf := [ami_tf; module_tf] |} = inr data
    /\ In ("aws_instance" +:+ "." +:+ "web") (Dict.keys (resources data))
    /\ In ("data." +:+ "aws_ami" +:+ "." +:+ "ubuntu")
          (Dict.keys (data_sources data))
    /\ In "vpc" (Dict.keys (modules data)).
Proof.
  eexists. split; [vm_compute; reflexivity|].
  pose proof (declarations_are_recorded "/tmp/tf"
                {| path_exists := true; rglob_tf := [ami_tf; module_tf] |} _
                ami_tf _ ltac:(vm_compute; reflexivity)
                ltac:(left; reflexivity) eq_refl eq_refl) as Hami.
  pose proof (declarations_are_recorded "/tmp/tf"
                {| path_exists := true; rglob_tf := [ami_tf; module_tf] |} _
                module_tf _ ltac:(vm_compute; reflexivity)
                ltac:(right; left; reflexivity) eq_refl eq_refl) as Hmod.
  split; [|split].
  - apply (proj1 Hami "aws_instance" "web"
             (VDict [("ami", VStr "${data.aws_ami.ubuntu}");
                     ("instance_type", VStr "t3.micro")])).
    left. reflexivity.
  - apply (proj1 (proj2 Hami eq_refl) "aws_ami" "ubuntu"
             (VDict [("most_recent", VScalar);
                     ("owners", VList [VStr "099720109477"])])).
    left. reflexivity.
  - apply (proj2 (proj2 Hmod eq_refl) eq_refl "vpc"
             (VDict [("source", VStr "./modules/vpc")])).
    left. reflexivity.
Defined.

Lemma for_each_malformed {A : Type} (l1 l2 : list (entry A))
    (body : string -> A -> tf_data -> outcome) (st : tf_data) :
  for_each (l1 ++ Malformed :: l2) body st
  = Raised (state_of (for_each l1 body st)).
Proof.
  revert st. induction l1 as [|[label content|] l1 IH]; intros st; simpl.
  - reflexivity.
  - destruct (body label content st) as [st1|st1]; simpl; [apply IH|reflexivity].
  - reflexivity.
Qed.

(** X8. An entry of the resource block that does not destructure ends the
    file there: the outcome is the exception with the records of the
    entries before it stored, and neither the entries after it nor the
    data and module blocks of the file leave a record. *)
Theorem malformed_entry_ends_the_file (file : string) (doc : document)
    (st : tf_data) (l1 l2 : list (entry (list (entry value)))) :
  doc_resource doc = Some (l1 ++ Malformed :: l2) ->
  extract_records file doc st
  = Raised (state_of
              (for_each l1 (fun ty instances =>
                              for_each instances (store_resource file ty)) st))
  /\ data_sources (state_of (extract_records file doc st)) = data_sources st
  /\ modules (state_of (extract_records file doc st)) = modules st.
Proof.
  intros H.
  assert (Hrun : extract_records file doc st
                 = Raised (state_of
                             (for_each l1 (fun ty instances =>
                                for_each instances (store_resource file ty)) st))).
  { unfold extract_records. rewrite H. unfold if_present at 1.
    rewrite for_each_malformed. reflexivity. }
  split; [exact Hrun|]. rewrite Hrun. unfold state_of at 1 3.
  apply (for_each_keeps
           (fun s => data_sources s = data_sources st /\ modules s = modules st)).
  - intros ty instances st' Hst'.
    apply (for_each_keeps
             (fun s => data_sources s = data_sources st
                       /\ modules s = modules st)); [|exact Hst'].
    intros nm cfg st'' Hst''. exact Hst''.
  - split; reflexivity.
Qed.

Lemma malformed_entry_ends_the_file_witness :
  let doc := {| doc_resource :=
                  Some ([Pair "aws_vpc" [Pair "main" vpc_config]]
                        ++ Malformed
                        :: [Pair "aws_subnet"
                              [Pair "main" (subnet_config "aws_vpc.main.id")]]);
                doc_data := Some [Pair "aws_ami" [Pair "ubuntu" (VDict [])]];
                doc_module := Some [Pair "vpc" (VDict [])] |} in
  Dict.keys (resources (state_of (extract_records "main.tf" doc (no_records "/tmp/tf"))))
  = ["aws_vpc.main"]
  /\ data_sources (state_of (extract_records "main.tf" doc (no_records "/tmp/tf"))) = []
  /\ modules (state_of (extract_records "main.tf" doc (no_records "/tmp/tf"))) = [].
Proof.
  cbv zeta. split; [reflexivity|].
  exact (proj2 (malformed_entry_ends_the_file "main.tf"
                  {| doc_resource :=
                       Some ([Pair "aws_vpc" [Pair "main" vpc_config]]
                             ++ Malformed
                             :: [Pair "aws_subnet"
                                   [Pair "main" (subnet_config "aws_vpc.main.id")]]);
                     doc_data := Some [Pair "aws_ami" [Pair "ubuntu" (VDict [])]];
                     doc_module := Some [Pair "vpc" (VDict [])] |}
                  (no_records "/tmp/tf")
                  [Pair "aws_vpc" [Pair "main" vpc_config]]
                  [Pair "aws_subnet" [Pair "main" (subnet_config "aws_vpc.main.id")]]
                  eq_refl)).
Defined.

(** ** Further properties of [generate_graph] *)

Lemma set_new {V : Type} (d : Dict.t V) (k : string) (v : V) :
  Dict.mem d k = false -> Dict.set d k v = d ++ [(k, v)].
Proof.
  unfold Dict.mem. induction d as [|[k' v'] d IH]; simpl; [reflexivity|].
  destruct (String.eqb_spec k' k) as [->|Hne]; [discriminate|].
  intros H. rewrite (IH H). reflexivity.
Qed.

Lemma add_node_new (G : DiGraph) (n : string) (a : attrs) :
  graph_ok G -> ~ In n (nx.nodes G) ->
  _node (nx.add_node G n a) = _node G ++ [(n, Dict.update [] a)].
Proof.
  intros HG Hn. unfold nx.add_node.
  assert (Hm : Dict.mem (_node G) n = false) by (apply mem_false_keys; exact Hn).
  rewrite (mem_adj_node G n HG), Hm. simpl. apply set_new. exact Hm.
Qed.

Lemma fold_add_node_fresh {A : Type} (name : A -> string)
    (node_attrs : A -> attrs) (l : list A) (G : DiGraph) :
  graph_ok G ->
  List.NoDup (nx.nodes G ++ map name l) ->
  _node (fold_left (fun G item => nx.add_node G (name item) (node_attrs item)) l G)
  = _node G ++ map (fun item => (name item, Dict.update [] (node_attrs item))) l.
Proof.
  revert G. induction l as [|item l IH]; intros G HG Hnd; simpl.
  - symmetry. apply app_nil_r.
  - assert (Hfresh : ~ In (name item) (nx.nodes G)).
    { apply NoDup_remove_2 in Hnd. intros H. apply Hnd.
      apply in_or_app. left. exact H. }
    pose proof (add_node_new G (name item) (node_attrs item) HG Hfresh) as Hnew.
    rewrite IH.
    + rewrite Hnew, <- app_assoc. reflexivity.
    + apply add_node_ok. exact HG.
    + unfold nx.nodes, Dict.keys. rewrite Hnew, map_app, <- app_assoc. exact Hnd.
Qed.

(** The node table of the assembled graph when no two records share a
    name: the records in the order of the loops, each with the attributes
    its loop writes. *)
Lemma generate_graph_nodes_data (data : tf_data) :
  List.NoDup (record_names data) ->
  nx.nodes_data (generate_graph data)
  = map (fun item => (fst item, resource_attrs (snd item))) (resources data)
    ++ map (fun item => (fst item, data_attrs (snd item))) (data_sources data)
    ++ map (fun item => (fst item, module_attrs (fst item) (snd item)))
         (modules data).
Proof.
  intros Hnd. unfold record_names, Dict.keys in Hnd.
  assert (H1 : List.NoDup (map fst (resources data)))
    by exact (NoDup_app_remove_r _ _ Hnd).
  assert (H2 : List.NoDup (map fst (resources data) ++ map fst (data_sources data))).
  { rewrite app_assoc in Hnd. exact (NoDup_app_remove_r _ _ Hnd). }
  rewrite app_assoc in Hnd.
  unfold generate_graph, nx.nodes_data. cbv zeta.
  destruct (fold_add_node (A := string * Res.info) fst
              (fun item => resource_attrs (snd item))
              (resources data) nx.empty graph_ok_empty) as (Ok1 & N1 & _).
  pose proof (fold_add_node_fresh (A := string * Res.info) fst
                (fun item => resource_attrs (snd item))
                (resources data) nx.empty graph_ok_empty H1) as F1.
  cbv beta in Ok1, N1, F1.
  set (G1 := fold_left _ (resources data) nx.empty) in *.
  simpl in F1.
  assert (K1 : nx.nodes G1 = map fst (resources data)).
  { unfold nx.nodes, Dict.keys. rewrite F1, map_map. reflexivity. }
  destruct (fold_add_node (A := string * Res.info) fst
              (fun item => data_attrs (snd item))
              (data_sources data) G1 Ok1) as (Ok2 & N2 & _).
  pose proof (fold_add_node_fresh (A := string * Res.info) fst
                (fun item => data_attrs (snd item))
                (data_sources data) G1 Ok1) as F2.
  cbv beta in Ok2, N2, F2.
  set (G2 := fold_left _ (data_sources data) G1) in *.
  rewrite K1 in F2. specialize (F2 H2).
  assert (K2 : nx.nodes G2
               = map fst (resources data) ++ map fst (data_sources data)).
  { unfold nx.nodes, Dict.keys. rewrite F2, map_app, map_map. f_equal.
    exact K1. }
  destruct (fold_add_node (A := string * Mod.info) fst
              (fun item => module_attrs (fst item) (snd item))
              (modules data) G2 Ok2) as (Ok3 & N3 & _).
  pose proof (fold_add_node_fresh (A := string * Mod.info) fst
                (fun item => module_attrs (fst item) (snd item))
                (modules data) G2 Ok2) as F3.
  cbv beta in Ok3, N3, F3.
  set (G3 := fold_left _ (modules data) G2) in *.
  rewrite K2 in F3. specialize (F3 Hnd).
  assert (K3 : forall x, In x (nx.nodes G3) <->
                         In x (map fst (resources data))
                         \/ In x (map fst (data_sources data))
                         \/ In x (map fst (modules data))).
  { intros x. rewrite N3, K2, in_app_iff. tauto. }
  destruct (fold_dependency_edges (A := string * Res.info) fst
              (fun item => Res.dependencies (snd item))
              (resources data) G3 Ok3) as (Ok4 & Nd4 & _).
  { intros item H. apply K3. left. apply in_map. exact H. }
  cbv beta in Ok4, Nd4.
  set (G4 := fold_left _ (resources data) G3) in *.
  destruct (fold_dependency_edges (A := string * Res.info) fst
              (fun item => Res.dependencies (snd item))
              (data_sources data) G4 Ok4) as (Ok5 & Nd5 & _).
  { intros item H. unfold nx.nodes. rewrite Nd4. apply K3.
    right. left. apply in_map. exact H. }
  cbv beta in Ok5, Nd5.
  set (G5 := fold_left _ (data_sources data) G4) in *.
  destruct (fold_dependency_edges (A := string * Mod.info) fst
              (fun item => Mod.dependencies (snd item))
              (modules data) G5 Ok5) as (Ok6 & Nd6 & _).
  { intros item H. unfold nx.nodes. rewrite Nd5, Nd4. apply K3.
    right. right. apply in_map. exact H. }
  cbv beta in Ok6, Nd6.
  rewrite Nd6, Nd5, Nd4, F3, F2, F1, <- app_assoc. reflexivity.
Qed.

(** X9. When no two records share a name, the nodes of the assembled graph
    are the records in the order of the loops, resources, then data
    sources, then modules, and each node carries exactly the attributes
    that its loop writes. *)
Theorem nodes_in_declaration_order (data : tf_data) :
  List.NoDup (record_names data) ->
  nx.nodes (generate_graph data) = record_names data
  /\ nx.nodes_data (generate_graph data)
     = map (fun item => (fst item, resource_attrs (snd item))) (resources data)
       ++ map (fun item => (fst item, data_attrs (snd item))) (data_sources data)
       ++ map (fun item => (fst item, module_attrs (fst item) (snd item)))
            (modules data).
Proof.
  intros Hnd. pose proof (generate_graph_nodes_data data Hnd) as H.
  split; [|exact H].
  unfold nx.nodes, Dict.keys. unfold nx.nodes_data in H. rewrite H.
  unfold record_names, Dict.keys. rewrite !map_app, !map_map. reflexivity.
Qed.

Lemma nodes_in_declaration_order_witness :
  nx.nodes (generate_graph test_graph_data) = record_names test_graph_data
  /\ nx.nodes_data (generate_graph test_graph_data)
     = [("aws_vpc.main",
         [("type", "resource"); ("resource_type", "aws_vpc");
          ("name", "main"); ("file", "main.tf")]);
        ("aws_subnet.main",
         [("type", "resource"); ("resource_type", "aws_subnet");
          ("name", "main"); ("file", "main.tf")])].
Proof.
  apply (nodes_in_declaration_order test_graph_data).
  repeat constructor; simpl; intuition discriminate.
Defined.

(** X10. The assembled graph never has more nodes than there are records
    nor more edges than the records list dependencies. *)
Theorem graph_size_bounds (data : tf_data) :
  length (nx.nodes (generate_graph data)) <= length (record_names data)
  /\ length (nx.edges (generate_graph data)) <= length (listed_dependencies data).
Proof.
  destruct (generate_graph_spec data) as (Hok & Hnodes & Hedges & _).
  split.
  - apply List.NoDup_incl_length; [exact (NoDup_nodes _ Hok)|].
    intros n. apply Hnodes.
  - apply List.NoDup_incl_length; [exact (NoDup_edges _ Hok)|].
    intros [x y] H. apply Hedges in H. destruct H as (_ & deps & Hrec & Hin).
    unfold listed_dependencies. apply in_flat_map. exists (y, deps).
    split; [exact Hrec|]. simpl. apply in_map_iff. exists x. auto.
Qed.

Lemma NoDup_json_ids (l : list string) :
  List.NoDup l -> List.NoDup (map (fun n => Some (JStr n)) l).
Proof.
  intros Hnd. induction Hnd as [|n l Hn Hl IH]; simpl; constructor; [|exact IH].
  rewrite in_map_iff. intros (n' & [= ->] & H). exact (Hn H).
Qed.

(** X11. In the export of an assembled graph the node ids are the node
    names, pairwise distinct, and the source and the target of every link
    are ids of exported nodes. *)
Theorem json_links_join_exported_nodes (data : tf_data) :
  map (fun obj => field obj "id")
    (elements_of (field (_graph_to_json (generate_graph data)) "nodes"))
  = map (fun n => Some (JStr n)) (nx.nodes (generate_graph data))
  /\ List.NoDup
       (map (fun obj => field obj "id")
          (elements_of (field (_graph_to_json (generate_graph data)) "nodes")))
  /\ forall link,
       In link (elements_of (field (_graph_to_json (generate_graph data)) "links")) ->
       exists u v,
         field link "source" = Some (JStr u)
         /\ field link "target" = Some (JStr v)
         /\ In (Some (JStr u))
              (map (fun obj => field obj "id")
                 (elements_of
                    (field (_graph_to_json (generate_graph data)) "nodes")))
         /\ In (Some (JStr v))
              (map (fun obj => field obj "id")
                 (elements_of
                    (field (_graph_to_json (generate_graph data)) "nodes"))).
Proof.
  destruct (generate_graph_spec data) as (Hok & Hnodes & Hedges & _).
  assert (Hids : map (fun obj => field obj "id")
                   (elements_of
                      (field (_graph_to_json (generate_graph data)) "nodes"))
                 = map (fun n => Some (JStr n)) (nx.nodes (generate_graph data))).
  { rewrite field_nodes. unfold nx.nodes, nx.nodes_data, Dict.keys.
    rewrite !map_map. reflexivity. }
  split; [exact Hids|]. rewrite Hids. split.
  - apply NoDup_json_ids. exact (NoDup_nodes _ Hok).
  - intros link H. rewrite field_links in H. apply in_map_iff in H.
    destruct H as ([u v] & <- & H). exists u, v.
    split; [reflexivity|]. split; [reflexivity|].
    apply Hedges in H. destruct H as (Hu & deps & Hrec & _).
    split; apply (in_map (fun n => Some (JStr n))); apply Hnodes; [exact Hu|].
    exact (record_dependencies_names _ _ _ Hrec).
Qed.

(** X12. When no two records share a name, the node objects of the export
    are, in order, one object for each resource, each data source and each
    module: a resource and a data source have their short name, their
    declared type and the group 1 and 2, a module has its key as name, an
    empty resource type and the group 3. *)
Theorem json_node_objects (data : tf_data) :
  List.NoDup (record_names data) ->
  elements_of (field (_graph_to_json (generate_graph data)) "nodes")
  = map resource_object (resources data)
    ++ map data_object (data_sources data)
    ++ map module_object (modules data).
Proof.
  intros Hnd. rewrite field_nodes, (generate_graph_nodes_data data Hnd).
  rewrite !map_app, !map_map. reflexivity.
Qed.

Lemma json_node_objects_witness :
  exists data,
    parse_terraform "/tmp/tf" module_fs = inr data
    /\ elements_of (field (_graph_to_json (generate_graph data)) "nodes")
       = [JObj [("id", JStr "aws_instance.web"); ("name", JStr "web");
                ("type", JStr "resource"); ("resource_type", JStr "aws_instance");
                ("file", JStr "main.tf"); ("group", JInt 1)];
          JObj [("id", JStr "vpc"); ("name", JStr "vpc");
                ("type", JStr "module"); ("resource_type", JStr "");
                ("file", JStr "main.tf"); ("group", JInt 3)]].
Proof.
  eexists. split; [vm_compute; reflexivity|].
  match goal with
  | |- elements_of (field (_graph_to_json (generate_graph ?d)) _) = _ =>
      refine (json_node_objects d _)
  end.
  repeat constructor; simpl; intuition discriminate.
Defined.

(** ** The colours of the page and of the static images *)

Lemma node_type_cases (node_type : string) :
  node_type = "resource" \/ node_type = "data" \/ node_type = "module"
  \/ (_get_node_color node_type = "#9E9E9E"
      /\ _get_node_shape node_type = "box"
      /\ _get_node_group node_type = 0%Z).
Proof.
  destruct (String.eqb_spec "resource" node_type) as [<-|E1]; [auto|].
  destruct (String.eqb_spec "data" node_type) as [<-|E2]; [auto|].
  destruct (String.eqb_spec "module" node_type) as [<-|E3]; [auto|].
  right; right; right.
  apply String.eqb_neq in E1, E2, E3.
  unfold _get_node_color, _get_node_shape, _get_node_group, Dict.get_default.
  cbn [Dict.get]. rewrite E1, E2, E3. repeat split.
Qed.

(** X13. The page and the static images give a node the same colour: the
    colour that the script of the page picks for the group of a node type
    is the colour of that type in [_get_node_color], for every type; a
    group outside the four known ones is drawn in the default colour. *)
Theorem page_and_image_colours_agree :
  (forall node_type : string,
      html_fill (_get_node_group node_type) = _get_node_color node_type)
  /\ (forall group : Z,
        (group < 0 \/ 3 < group)%Z -> html_fill group = "#9E9E9E").
Proof.
  split.
  - intros node_type.
    destruct (node_type_cases node_type) as [->|[->|[->|(Hc & _ & Hg)]]];
      try reflexivity.
    rewrite Hc, Hg. reflexivity.
  - intros group Hg. unfold html_fill.
    destruct (group <? 0)%Z eqn:Hneg; [reflexivity|].
    apply Z.ltb_ge in Hneg.
    destruct (Z.to_nat group) as [|[|[|[|n]]]] eqn:E; try lia.
    destruct n; reflexivity.
Qed.

Lemma page_and_image_colours_agree_witness :
  html_fill (_get_node_group "output") = _get_node_color "output"
  /\ html_fill 7 = "#9E9E9E".
Proof.
  split.
  - exact (proj1 page_and_image_colours_agree "output").
  - exact (proj2 page_and_image_colours_agree 7%Z ltac:(right; reflexivity)).
Defined.

Lemma declared_nodes_app (b1 b2 : list dot_stmt) :
  declared_nodes (b1 ++ b2) = declared_nodes b1 ++ declared_nodes b2.
Proof. apply flat_map_app. Qed.

Lemma dot_edges_app (b1 b2 : list dot_stmt) :
  dot_edges (b1 ++ b2) = dot_edges b1 ++ dot_edges b2.
Proof. apply flat_map_app. Qed.

Lemma declared_nodes_of_nodes (l : list (string * attrs)) :
  declared_nodes (map dot_node l) = map fst l /\ dot_edges (map dot_node l) = [].
Proof.
  induction l as [|item l [IH1 IH2]]; [split; reflexivity|].
  split; simpl; [rewrite <- IH1|rewrite <- IH2]; reflexivity.
Qed.

Lemma declared_nodes_of_edges (l : list (string * string)) :
  declared_nodes (map dot_edge l) = [] /\ dot_edges (map dot_edge l) = l.
Proof.
  induction l as [|[u v] l [IH1 IH2]]; [split; reflexivity|].
  split; [exact IH1|].
  change (dot_edges (map dot_edge ((u, v) :: l)))
    with ((u, v) :: dot_edges (map dot_edge l)).
  rewrite IH2. reflexivity.
Qed.

Lemma export_svg_dot_contents (graph : DiGraph) :
  declared_nodes (export_svg_dot graph) = nx.nodes graph
  /\ dot_edges (export_svg_dot graph) = nx.edges graph.
Proof.
  unfold export_svg_dot.
  change (GraphAttr "rankdir" "TB"
          :: map dot_node (nx.nodes_data graph) ++ map dot_edge (nx.edges graph))
    with ([GraphAttr "rankdir" "TB"]
          ++ map dot_node (nx.nodes_data graph) ++ map dot_edge (nx.edges graph)).
  rewrite !declared_nodes_app, !dot_edges_app.
  destruct (declared_nodes_of_nodes (nx.nodes_data graph)) as [-> ->].
  destruct (declared_nodes_of_edges (nx.edges graph)) as [-> ->].
  simpl. rewrite app_nil_r. split; reflexivity.
Qed.

(** X14. [export_svg] and [export_png] hand the same description to the
    layout engine: a node statement for each node and an edge statement
    for each edge of the graph, in order.  For an assembled graph both
    ends of every edge statement are declared by a node statement, and
    every node statement is filled with the colour and drawn with the
    shape of the node's kind, the colour that the page gives the group
    exported for that node, never the default one. *)
Theorem static_image_description :
  (forall graph : DiGraph,
      export_png_dot graph = export_svg_dot graph
      /\ declared_nodes (export_svg_dot graph) = nx.nodes graph
      /\ dot_edges (export_svg_dot graph) = nx.edges graph)
  /\ (forall data : tf_data,
        (forall tail head,
            In (EdgeStmt tail head) (export_svg_dot (generate_graph data)) ->
            In tail (declared_nodes (export_svg_dot (generate_graph data)))
            /\ In head (declared_nodes (export_svg_dot (generate_graph data))))
        /\ (forall name label style,
              In (NodeStmt name label style)
                 (export_svg_dot (generate_graph data)) ->
              exists a t,
                In (name, a) (nx.nodes_data (generate_graph data))
                /\ Dict.get a "type" = Some t /\ In t node_kinds
                /\ style = [("color", _get_node_color t);
                            ("shape", _get_node_shape t); ("style", "filled")]
                /\ field (node_object (name, a)) "group"
                   = Some (JInt (_get_node_group t))
                /\ html_fill (_get_node_group t) = _get_node_color t
                /\ _get_node_color t <> "#9E9E9E")).
Proof.
  split.
  - intros graph. split; [reflexivity|]. apply export_svg_dot_contents.
  - intros data.
    destruct (generate_graph_spec data) as (Hok & Hnodes & Hedges & Htyped).
    destruct (export_svg_dot_contents (generate_graph data)) as [Hdecl Hdot].
    split.
    + intros tail head H. rewrite Hdecl.
      assert (He : In (tail, head) (nx.edges (generate_graph data))).
      { rewrite <- Hdot. unfold dot_edges. apply in_flat_map.
        exists (EdgeStmt tail head). split; [exact H|]. left. reflexivity. }
      apply Hedges in He. destruct He as (Ht & deps & Hrec & _).
      split; apply Hnodes; [exact Ht|].
      exact (record_dependencies_names _ _ _ Hrec).
    + intros name label style H. unfold export_svg_dot in H.
      destruct H as [H|H]; [discriminate H|].
      apply in_app_iff in H. destruct H as [H|H].
      * apply in_map_iff in H. destruct H as ([n a] & Hstmt & Hin).
        rewrite List.Forall_forall in Htyped.
        destruct (Htyped _ Hin) as (t & Ht & Hkind). simpl in Ht.
        unfold dot_node, Dict.get_default in Hstmt. simpl in Hstmt.
        rewrite Ht in Hstmt. injection Hstmt as <- <- <-.
        exists a, t. split; [exact Hin|]. split; [exact Ht|].
        split; [exact Hkind|]. split; [reflexivity|].
        split; [unfold node_object, field, Dict.get_default; simpl;
                rewrite Ht; reflexivity|].
        destruct Hkind as [<-|[<-|[<-|[]]]]; split; reflexivity || discriminate.
      * apply in_map_iff in H. destruct H as (e & Hstmt & _). discriminate Hstmt.
Qed.

Lemma static_image_description_witness :
  exists data,
    parse_terraform "/tmp/tf" ami_fs = inr data
    /\ export_svg_dot (generate_graph data)
       = [GraphAttr "rankdir" "TB";
          NodeStmt "aws_instance.web" "web"
            [("color", "#4CAF50"); ("shape", "box"); ("style", "filled")];
          NodeStmt "data.aws_ami.ubuntu" "ubuntu"
            [("color", "#2196F3"); ("shape", "ellipse"); ("style", "filled")];
          EdgeStmt "data.aws_ami.ubuntu" "aws_instance.web"]
    /\ In "data.aws_ami.ubuntu"
          (declared_nodes (export_svg_dot (generate_graph data)))
    /\ In "aws_instance.web"
          (declared_nodes (export_svg_dot (generate_graph data))).
Proof.
  eexists. split; [vm_compute; reflexivity|]. split; [reflexivity|].
  apply (proj1 (proj2 static_image_description _)).
  right. right. right. left. reflexivity.
Defined.

(** ** From the files to the graph *)

Lemma record_dependencies_bodies (data : tf_data) (name : string)
    (deps : list string) :
  In (name, deps) (record_dependencies data) ->
  exists config, In (name, config, deps) (record_bodies data).
Proof.
  rewrite in_record_dependencies.
  intros [([k info] & H & -> & ->)|[([k info] & H & -> & ->)
                                   |([k info] & H & -> & ->)]]; simpl.
  - exists (Res.config info). apply in_record_bodies. left. exists info. auto.
  - exists (Res.config info). apply in_record_bodies. right. left.
    exists info. auto.
  - exists (Mod.config info). apply in_record_bodies. right. right.
    exists info. auto.
Qed.

(** X15. In the graph of a parsed configuration every edge comes from the
    body of its target: the source of the edge is the key of a record and
    is listed by the target, whose list is the scan of its body; it is the
    value of a [source] field of that body, or the stripped value of a
    string of the body, under another key, that starts with the
    interpolation marker, [data.] or [module.], and then it starts with
    [data.] or [module.] itself. *)
Theorem parsed_edges_come_from_bodies (root : string) (fs : fs_view)
    (data : tf_data) (A B : string) :
  parse_terraform root fs = inr data ->
  In (A, B) (nx.edges (generate_graph data)) ->
  In A (record_names data)
  /\ exists config deps,
       In (B, config, deps) (record_bodies data)
       /\ deps = _extract_dependencies config
       /\ In A deps
       /\ (has_field config "source" A
           \/ (PyStr.startswith_any A ref_prefixes = true
               /\ exists key s,
                    key <> "source" /\ has_field config key s
                    /\ PyStr.startswith_any s marker_prefixes = true
                    /\ A = PyStr.strip marker_chars s)).
Proof.
  intros Hrun Hedge.
  destruct (generate_graph_spec data) as (_ & _ & Hedges & _).
  apply Hedges in Hedge. destruct Hedge as (HA & deps & Hrec & Hin).
  split; [exact HA|].
  destruct (record_dependencies_bodies _ _ _ Hrec) as [config Hbody].
  exists config, deps. split; [exact Hbody|].
  pose proof (parse_terraform_scanned root fs data Hrun B config deps Hbody)
    as Hscan.
  split; [exact Hscan|]. split; [exact Hin|].
  rewrite Hscan in Hin.
  apply in_extract_dependencies, in_extract_refs in Hin.
  destruct Hin as (key & s & Hf & Hd). apply in_scan_string in Hd.
  destruct Hd as [[-> ->]|(Hk & Hm & -> & Hr)]; [left; exact Hf|].
  right. split; [exact Hr|]. exists key, s. auto.
Qed.

Lemma parsed_edges_come_from_bodies_witness :
  exists data,
    parse_terraform "/tmp/tf" ami_fs = inr data
    /\ In "data.aws_ami.ubuntu" (record_names data)
    /\ exists config deps,
         In ("aws_instance.web", config, deps) (record_bodies data)
         /\ deps = _extract_dependencies config
         /\ In "data.aws_ami.ubuntu" deps
         /\ (has_field config "source" "data.aws_ami.ubuntu"
             \/ (PyStr.startswith_any "data.aws_ami.ubuntu" ref_prefixes = true
                 /\ exists key s,
                      key <> "source" /\ has_field config key s
                      /\ PyStr.startswith_any s marker_prefixes = true
                      /\ "data.aws_ami.ubuntu" = PyStr.strip marker_chars s)).
Proof.
  eexists. split; [vm_compute; reflexivity|].
  apply (parsed_edges_come_from_bodies "/tmp/tf" ami_fs).
  - vm_compute. reflexivity.
  - vm_compute. left. reflexivity.
Defined.
